(** * Stripe payment monitor: a shallow embedding of [src/index.js]

    The webhook pipeline of the service (log buffer, the two notification
    sinks, the failure-processing routine, the [/webhook] and [/test]
    handlers) is written as Rocq functions over an explicit world state.

    - JavaScript values that can reach the handlers (the output of
      [JSON.parse] or of the provider's [constructEvent]) are the type
      [JsVal]; numbers are IEEE-754 doubles ([PrimFloat.float]).
    - A [try]/[catch]/[throw] is a result type [Completion]; functions that
      log, read the clock or call a collaborator thread a [World].
    - The collaborators (mail transport, datastore, signature verifier,
      [JSON.parse], the clock and the two number/string conversions of the
      language runtime) are the fields of a record [Env].
    - A [await] is sequential composition: one request is followed from its
      arrival to its response.

    Layout: the embedding; sample runs; lemmas on the log buffer and on the
    pipeline; one theorem per claim of the specification, C1 to C10; then
    further properties of the code, X1 to X20. *)

From Stdlib Require Import ZArith List String Ascii Bool Lia.
From Stdlib Require Import DecimalString.
From Stdlib Require Import Floats.
Import ListNotations.

Local Open Scope list_scope.
Local Open Scope string_scope.
Set Warnings "-register-all,-inexact-float".

(** ** JavaScript values *)

(** The values [JSON.parse] builds, and [undefined] for what is not there.
    An object is the list of its own properties, a key bound once. *)
Inductive JsVal : Type :=
| JUndefined
| JNull
| JBool (b : bool)
| JNum (x : float)
| JStr (s : string)
| JArr (items : list JsVal)
| JObj (props : list (string * JsVal)).

(** A thrown value.  Every [throw] that can reach the handlers comes from the
    language runtime ([TypeError], [SyntaxError]) or from a collaborator
    library, and is an [Error] object; the source reads only its [message]. *)
Record JsError : Type := mkError { name : string; message : string }.

Definition TypeError (msg : string) : JsError := mkError "TypeError" msg.

(** The completion of an evaluation: a value, or a thrown error. *)
Inductive Completion (A : Type) : Type :=
| Normal (a : A)
| Throw (e : JsError).
Arguments Normal {A} a.
Arguments Throw {A} e.

Definition cbind {A B} (c : Completion A) (k : A -> Completion B) : Completion B :=
  match c with
  | Normal a => k a
  | Throw e => Throw e
  end.

(** ** Property access *)

Fixpoint assoc (k : string) (props : list (string * JsVal)) : option JsVal :=
  match props with
  | [] => None
  | (k', v) :: rest => if String.eqb k k' then Some v else assoc k rest
  end.

(** [o.k] for the property names the source reads ([type], [data], [object],
    [id], [amount], [currency], ...): none of them is inherited from
    [Object.prototype], [Array.prototype] or the wrappers of the primitives,
    so only an object's own properties answer; reading a property of
    [undefined] or [null] throws. *)
Definition get (o : JsVal) (k : string) : Completion JsVal :=
  match o with
  | JUndefined =>
      Throw (TypeError ("Cannot read properties of undefined (reading '" ++ k ++ "')"))
  | JNull =>
      Throw (TypeError ("Cannot read properties of null (reading '" ++ k ++ "')"))
  | JObj props =>
      match assoc k props with
      | Some v => Normal v
      | None => Normal JUndefined
      end
  | _ => Normal JUndefined
  end.

(** [o?.k] *)
Definition getOpt (o : JsVal) (k : string) : Completion JsVal :=
  match o with
  | JUndefined | JNull => Normal JUndefined
  | _ => get o k
  end.

(** ** Numbers *)

Definition nat_digits (n : N) : string := NilZero.string_of_uint (N.to_uint n).

Fixpoint zeros (k : nat) : string :=
  match k with
  | O => ""
  | S k' => String "0" (zeros k')
  end.

(** The digits of [n] with a decimal point before the last two, padded with
    zeros so that at least one digit stands before the point. *)
Definition fixed2 (n : N) : string :=
  let d := nat_digits n in
  let d := zeros (3 - String.length d) ++ d in
  let k := (String.length d - 2)%nat in
  substring 0 k d ++ "." ++ substring k 2 d.

(** The integer [n] for which [n / 100 - m * 2^e] is closest to zero, the
    larger one when two are as close. *)
Definition nearest_hundredth (m : positive) (e : Z) : N :=
  if (0 <=? e)%Z
  then Z.to_N (Z.pos m * 100 * 2 ^ e)
  else Z.to_N ((Z.pos m * 200 + 2 ^ (- e)) / 2 ^ (- e + 1)).

(** [m * 2^e >= 10^21] *)
Definition at_least_1e21 (m : positive) (e : Z) : bool :=
  if (0 <=? e)%Z
  then (10 ^ 21 <=? Z.pos m * 2 ^ e)%Z
  else (10 ^ 21 * 2 ^ (- e) <=? Z.pos m)%Z.

Section Numbers.
(** [Number::toString] of the language runtime. *)
Variable NumberToString : float -> string.

(** [x.toFixed(2)] (ECMA-262, Number.prototype.toFixed). *)
Definition toFixed2 (x : float) : string :=
  match Prim2SF x with
  | S754_nan => "NaN"
  | S754_infinity false => "Infinity"
  | S754_infinity true => "-Infinity"
  | S754_zero _ => "0.00"
  | S754_finite s m e =>
      (if s then "-" else "") ++
      (if at_least_1e21 m e
       then NumberToString (PrimFloat.abs x)
       else fixed2 (nearest_hundredth m e))
  end.
End Numbers.


(** ** Strings *)

(** [s.toUpperCase()].  Strings are byte strings here: the ASCII letters are
    mapped, every other byte is kept. *)
Definition upper_ascii (c : ascii) : ascii :=
  let n := nat_of_ascii c in
  if andb (97 <=? n)%nat (n <=? 122)%nat then ascii_of_nat (n - 32) else c.

Fixpoint toUpperCase (s : string) : string :=
  match s with
  | EmptyString => EmptyString
  | String c rest => String (upper_ascii c) (toUpperCase rest)
  end.

(** [String(t)] of an integral number [t] below [10^21], as [Date.now()] is. *)
Definition integer_digits (t : Z) : string :=
  match t with
  | Zneg p => "-" ++ nat_digits (Npos p)
  | _ => nat_digits (Z.to_N t)
  end.

(** ** Collaborators *)

Record MailOptions : Type := mkMail {
  from : option string;
  to : option string;
  subject : string;
  html : string
}.

Definition Fields : Type := list (string * JsVal).

(** Everything the module reaches through [require], [process.env] and the
    language runtime.  The clients themselves ([stripe], [transporter],
    [base]) are taken as built; each call of one is a function of its
    arguments here. *)
Record Env : Type := mkEnv {
  (** [process.env.STRIPE_WEBHOOK_SECRET] and [process.env.GMAIL_USER] *)
  STRIPE_WEBHOOK_SECRET : option string;
  GMAIL_USER : option string;
  (** [stripe.webhooks.constructEvent(body, sig, secret)] *)
  constructEvent : string -> option string -> string -> Completion JsVal;
  (** [JSON.parse(text)] *)
  JSON_parse : string -> Completion JsVal;
  (** [await transporter.sendMail(options)] *)
  sendMail : MailOptions -> Completion unit;
  (** [await base(table).create([{fields}])]: the [id] of the first record
      of the array the call resolves to *)
  createRecord : string -> Fields -> Completion string;
  (** the time value of the k-th [new Date()] or [Date.now()] of the run,
      and the two renderings of a time value the source asks for *)
  clock : nat -> Z;
  toISOString : Z -> string;
  toLocaleString : Z -> string;
  (** [Number::toString] and [StringToNumber] of the language runtime *)
  NumberToString : float -> string;
  StringToNumber : string -> float
}.

(** ** The world *)

Inductive Level : Type := info | error.

Definition levelName (l : Level) : string :=
  match l with
  | info => "info"
  | error => "error"
  end.

Record LogEntry : Type := mkEntry {
  timestamp : string;
  level : Level;
  entry_message : string
}.

Inductive Sink : Type := EmailSink | RecordSink.

(** What a run does outside the log: the two sink functions being entered,
    and the calls that leave the process. *)
Inductive Effect : Type :=
| Invoke (sink : Sink) (paymentData : JsVal)
| SendMail (options : MailOptions)
| CreateRecord (table : string) (fields : Fields).

Record World : Type := mkWorld {
  logs : list LogEntry;       (* the module-level array [logs] *)
  console : list string;      (* the lines written by [console.log] *)
  reads : nat;                (* how many times the clock was read *)
  trace : list Effect         (* oldest first *)
}.

Definition initial : World := mkWorld [] [] 0 [].

(** ** Computations: state and exceptions *)

Definition M (A : Type) : Type := World -> Completion A * World.

Definition ret {A} (a : A) : M A := fun w => (Normal a, w).

Definition throw {A} (e : JsError) : M A := fun w => (Throw e, w).

Definition bind {A B} (m : M A) (k : A -> M B) : M B :=
  fun w =>
    match m w with
    | (Normal a, w') => k a w'
    | (Throw e, w') => (Throw e, w')
    end.

Definition lift {A} (c : Completion A) : M A := fun w => (c, w).

(** [try { m } catch (error) { h error }] *)
Definition tryCatch {A} (m : M A) (h : JsError -> M A) : M A :=
  fun w =>
    match m w with
    | (Normal a, w') => (Normal a, w')
    | (Throw e, w') => h e w'
    end.

Definition emit (e : Effect) : M unit :=
  fun w => (Normal tt, mkWorld (logs w) (console w) (reads w) (trace w ++ [e])).

Declare Scope js_scope.
Delimit Scope js_scope with js.
Notation "x <- m ;; k" := (bind m (fun x => k))
  (at level 61, m at next level, right associativity) : js_scope.
Notation "m ;;; k" := (bind m (fun _ => k))
  (at level 61, right associativity) : js_scope.
Local Open Scope js_scope.

(** ** The service *)

Definition MAX_LOGS : nat := 100.

(** [logs.push(entry)] followed by [if (logs.length > 100) logs.shift()]. *)
Definition push (entry : LogEntry) (buffer : list LogEntry) : list LogEntry :=
  let pushed := (buffer ++ [entry])%list in
  if (MAX_LOGS <? List.length pushed)%nat then List.tl pushed else pushed.

Definition hasOwn (k : string) (props : list (string * JsVal)) : bool :=
  match assoc k props with
  | Some _ => true
  | None => false
  end.

(** [v || fallback] keeps [v] unless it is falsy. *)
Definition truthy (v : JsVal) : bool :=
  match v with
  | JUndefined | JNull => false
  | JBool b => b
  | JNum x => negb (PrimFloat.is_zero x || PrimFloat.is_nan x)
  | JStr s => negb (String.eqb s "")
  | JArr _ | JObj _ => true
  end.

Definition or_else (v fallback : JsVal) : JsVal :=
  if truthy v then v else fallback.

Section Service.
Variable env : Env.

(** *** Conversions of the language *)

(** [ToString(v)], as a template literal applies it.  An array is joined
    with commas, [undefined] and [null] items giving the empty string.  A
    plain object is ["[object Object]"] through [Object.prototype.toString],
    unless an own (data, so not callable) property [toString] hides it:
    then no conversion to a primitive is left and a [TypeError] is thrown. *)
Fixpoint ToString (v : JsVal) : Completion string :=
  match v with
  | JUndefined => Normal "undefined"
  | JNull => Normal "null"
  | JBool true => Normal "true"
  | JBool false => Normal "false"
  | JNum x => Normal (NumberToString env x)
  | JStr s => Normal s
  | JArr items =>
      (fix join (l : list JsVal) : Completion string :=
         let item (x : JsVal) :=
           match x with
           | JUndefined | JNull => Normal ""
           | _ => ToString x
           end in
         match l with
         | [] => Normal ""
         | [x] => item x
         | x :: rest =>
             cbind (item x) (fun s =>
             cbind (join rest) (fun r => Normal (s ++ "," ++ r)))
         end) items
  | JObj props =>
      if hasOwn "toString" props
      then Throw (TypeError "Cannot convert object to primitive value")
      else Normal "[object Object]"
  end.

(** [ToNumber(v)], as [v / 100] applies it; an array or object goes through
    its string. *)
Definition ToNumber (v : JsVal) : Completion float :=
  match v with
  | JUndefined => Normal nan
  | JNull => Normal 0%float
  | JBool true => Normal 1%float
  | JBool false => Normal 0%float
  | JNum x => Normal x
  | JStr s => Normal (StringToNumber env s)
  | JArr _ | JObj _ => cbind (ToString v) (fun s => Normal (StringToNumber env s))
  end.

(** *** Logging system *)

Definition newDate : M Z :=
  fun w => (Normal (clock env (reads w)),
            mkWorld (logs w) (console w) (S (reads w)) (trace w)).

Definition log (message : string) (level : Level) : M unit :=
  t <- newDate ;;
  let entry := mkEntry (toISOString env t) level message in
  let line :=
    "[" ++ timestamp entry ++ "] " ++ toUpperCase (levelName level) ++ ": " ++ message in
  fun w =>
    (Normal tt,
     mkWorld (push entry (logs w)) (console w ++ [line])%list (reads w) (trace w)).

(** *** What both sinks read from the payment object *)

(** [paymentData.amount / 100] *)
Definition majorUnits (paymentData : JsVal) : Completion float :=
  cbind (get paymentData "amount") (fun amount =>
  cbind (ToNumber amount) (fun a =>
  Normal (PrimFloat.div a 100))).

(** [(paymentData.amount / 100).toFixed(2)] *)
Definition displayAmount (paymentData : JsVal) : Completion string :=
  cbind (majorUnits paymentData) (fun x =>
  Normal (toFixed2 (NumberToString env) x)).

(** [paymentData.currency.toUpperCase()] *)
Definition currencyCode (paymentData : JsVal) : Completion string :=
  cbind (get paymentData "currency") (fun currency =>
  match currency with
  | JStr s => Normal (toUpperCase s)
  | JUndefined =>
      Throw (TypeError "Cannot read properties of undefined (reading 'toUpperCase')")
  | JNull =>
      Throw (TypeError "Cannot read properties of null (reading 'toUpperCase')")
  | _ => Throw (TypeError "paymentData.currency.toUpperCase is not a function")
  end).

(** [paymentData.k || 'N/A'] *)
Definition orNA (paymentData : JsVal) (k : string) : Completion JsVal :=
  cbind (get paymentData k) (fun v => Normal (or_else v (JStr "N/A"))).

(** [`${paymentData.k || 'N/A'}`] *)
Definition orNA_text (paymentData : JsVal) (k : string) : Completion string :=
  cbind (orNA paymentData k) ToString.

(** [`${paymentData.id}`] *)
Definition idText (paymentData : JsVal) : Completion string :=
  cbind (get paymentData "id") ToString.

(** [paymentData.source?.type || 'N/A'] *)
Definition sourceType (paymentData : JsVal) : Completion JsVal :=
  cbind (get paymentData "source") (fun source =>
  cbind (getOpt source "type") (fun t =>
  Normal (or_else t (JStr "N/A")))).

(** *** Send Gmail alert *)

Definition nl : string := String (ascii_of_nat 10) "".

(** One line of the template literal: the line break and its indentation. *)
Definition row (s : string) : string := nl ++ "      " ++ s.

Definition emailContent (time : string) (paymentData : JsVal) : Completion string :=
  cbind (displayAmount paymentData) (fun amount =>
  cbind (currencyCode paymentData) (fun currency =>
  cbind (orNA_text paymentData "customer_email") (fun customer_email =>
  cbind (orNA_text paymentData "customer") (fun customer =>
  cbind (idText paymentData) (fun id =>
  cbind (orNA_text paymentData "failure_code") (fun failure_code =>
  cbind (orNA_text paymentData "failure_message") (fun failure_message =>
  cbind (orNA_text paymentData "description") (fun description =>
  Normal (
    row "<h2>🚨 Payment Failed Alert</h2>" ++
    row "<p><strong>Time:</strong> " ++ time ++ "</p>" ++
    row "<p><strong>Amount:</strong> $" ++ amount ++ " " ++ currency ++ "</p>" ++
    row "<p><strong>Customer:</strong> " ++ customer_email ++ "</p>" ++
    row "<p><strong>Customer ID:</strong> " ++ customer ++ "</p>" ++
    row "<p><strong>Payment ID:</strong> " ++ id ++ "</p>" ++
    row "<p><strong>Failure Code:</strong> " ++ failure_code ++ "</p>" ++
    row "<p><strong>Failure Message:</strong> " ++ failure_message ++ "</p>" ++
    row "<p><strong>Description:</strong> " ++ description ++ "</p>" ++
    row "" ++
    row "<hr>" ++
    row "<p><small>This is an automated alert from your Stripe Payment Monitor</small></p>" ++
    nl ++ "    "))))))))).

Definition mailOptions (time : string) (paymentData : JsVal) : Completion MailOptions :=
  cbind (emailContent time paymentData) (fun content =>
  cbind (displayAmount paymentData) (fun amount =>
  Normal (mkMail (GMAIL_USER env) (GMAIL_USER env)
                 ("🚨 Payment Failed: $" ++ amount) content))).

Definition transporter_sendMail (options : MailOptions) : M unit :=
  emit (SendMail options) ;;; lift (sendMail env options).

(** The [try] block of [sendFailedPaymentAlert]. *)
Definition alert_attempt (paymentData : JsVal) : M unit :=
  t <- newDate ;;
  options <- lift (mailOptions (toLocaleString env t) paymentData) ;;
  transporter_sendMail options ;;;
  id <- lift (idText paymentData) ;;
  log ("Failed payment alert sent via Gmail for payment " ++ id) info.

Definition sendFailedPaymentAlert (paymentData : JsVal) : M unit :=
  emit (Invoke EmailSink paymentData) ;;;
  tryCatch
    (alert_attempt paymentData)
    (fun error_ =>
       log ("Error sending Gmail alert: " ++ message error_) error).

(** *** Update Airtable with failed payment *)

Definition recordFields (paymentData : JsVal) : M Fields :=
  id <- lift (get paymentData "id") ;;
  amount <- lift (majorUnits paymentData) ;;
  currency <- lift (currencyCode paymentData) ;;
  customer_email <- lift (orNA paymentData "customer_email") ;;
  customer <- lift (orNA paymentData "customer") ;;
  failure_code <- lift (orNA paymentData "failure_code") ;;
  failure_message <- lift (orNA paymentData "failure_message") ;;
  description <- lift (orNA paymentData "description") ;;
  t <- newDate ;;
  source <- lift (sourceType paymentData) ;;
  ret [ ("Payment ID", id);
        ("Amount", JNum amount);
        ("Currency", JStr currency);
        ("Customer Email", customer_email);
        ("Customer ID", customer);
        ("Failure Code", failure_code);
        ("Failure Message", failure_message);
        ("Description", description);
        ("Failed At", JStr (toISOString env t));
        ("Status", JStr "Failed");
        ("Source", source) ].

Definition base_create (table : string) (fields : Fields) : M string :=
  emit (CreateRecord table fields) ;;; lift (createRecord env table fields).

(** The [try] block of [updateAirtableFailedPayment].  It returns
    [record[0]], of which the callers read nothing; its [id] stands for it. *)
Definition record_attempt (paymentData : JsVal) : M string :=
  fields <- recordFields paymentData ;;
  record_id <- base_create "Failed Payments" fields ;;
  log ("Failed payment record created in Airtable: " ++ record_id) info ;;;
  ret record_id.

Definition updateAirtableFailedPayment (paymentData : JsVal) : M string :=
  emit (Invoke RecordSink paymentData) ;;;
  tryCatch
    (record_attempt paymentData)
    (fun error_ =>
       log ("Error creating Airtable record: " ++ message error_) error ;;;
       throw error_).

(** *** Process failed payment event *)

Definition processFailedPayment (eventData : JsVal) : M unit :=
  tryCatch
    (data <- lift (get eventData "data") ;;
     paymentData <- lift (get data "object") ;;
     id <- lift (idText paymentData) ;;
     amount <- lift (displayAmount paymentData) ;;
     log ("Processing failed payment: " ++ id ++ ", Amount: $" ++ amount) info ;;;
     sendFailedPaymentAlert paymentData ;;;
     updateAirtableFailedPayment paymentData ;;;
     id' <- lift (idText paymentData) ;;
     log ("Successfully processed failed payment: " ++ id') info)
    (fun error_ =>
       log ("Error processing failed payment: " ++ message error_) error ;;;
       throw error_).

(** *** HTTP *)

Inductive Body : Type :=
| Json (v : JsVal)       (* [res.json(v)] *)
| Text (s : string).     (* [res.send(s)] *)

Record Response : Type := mkResponse { status : Z; payload : Body }.

Record Request : Type := mkRequest {
  body : string;                       (* [req.body], the raw bytes *)
  stripe_signature : option string     (* [req.headers['stripe-signature']] *)
}.

(** [if (process.env.STRIPE_WEBHOOK_SECRET)]: set, and not the empty string. *)
Definition configured_secret : option string :=
  match STRIPE_WEBHOOK_SECRET env with
  | Some s => if String.eqb s "" then None else Some s
  | None => None
  end.

(** The first statement of the webhook's [try]. *)
Definition verify (req : Request) : Completion JsVal :=
  match configured_secret with
  | Some secret => constructEvent env (body req) (stripe_signature req) secret
  | None => JSON_parse env (body req)
  end.

Definition recognized (type : string) : bool :=
  String.eqb type "charge.failed"
  || String.eqb type "payment_intent.payment_failed"
  || String.eqb type "invoice.payment_failed"
  || String.eqb type "payment_method.attach_failed".

(** The [switch (event.type)]: [case] labels compare with [===], so only a
    string can match one. *)
Definition dispatch (event : JsVal) : M unit :=
  type <- lift (get event "type") ;;
  match type with
  | JStr t =>
      if String.eqb t "charge.failed" then processFailedPayment event
      else if String.eqb t "payment_intent.payment_failed" then processFailedPayment event
      else if String.eqb t "invoice.payment_failed" then processFailedPayment event
      else if String.eqb t "payment_method.attach_failed" then processFailedPayment event
      else log ("Unhandled event type: " ++ t) info
  | _ =>
      text <- lift (ToString type) ;;
      log ("Unhandled event type: " ++ text) info
  end.

Definition received : Response :=
  mkResponse 200 (Json (JObj [("received", JBool true)])).

(** [app.post('/webhook', ...)] *)
Definition webhook (req : Request) : M Response :=
  tryCatch
    (event <- lift (verify req) ;;
     type <- lift (get event "type") ;;
     text <- lift (ToString type) ;;
     log ("Received Stripe webhook: " ++ text) info ;;;
     dispatch event ;;;
     ret received)
    (fun error_ =>
       log ("Webhook error: " ++ message error_) error ;;;
       ret (mkResponse 400 (Text ("Webhook error: " ++ message error_)))).

(** [app.post('/test', ...)] *)
Definition testMail : MailOptions :=
  mkMail (GMAIL_USER env) (GMAIL_USER env)
    "Test: Stripe Payment Monitor is Working"
    "<p>This is a test email to confirm your Stripe Payment Monitor is working correctly!</p>".

Definition testFields : M Fields :=
  now <- newDate ;;
  t <- newDate ;;
  ret [ ("Payment ID", JStr ("TEST_" ++ integer_digits now));
        ("Amount", JNum 99.99%float);
        ("Currency", JStr "USD");
        ("Customer Email", JStr "test@example.com");
        ("Failure Code", JStr "TEST");
        ("Failure Message", JStr "This is a test record");
        ("Failed At", JStr (toISOString env t));
        ("Status", JStr "Test") ].

Definition test : M Response :=
  tryCatch
    (log "Manual test run initiated" info ;;;
     transporter_sendMail testMail ;;;
     fields <- testFields ;;
     record_id <- base_create "Failed Payments" fields ;;
     log "Manual test completed successfully" info ;;;
     ret (mkResponse 200 (Json (JObj
            [ ("success", JBool true);
              ("message", JStr "Test completed successfully");
              ("gmail_test", JStr "Email sent");
              ("airtable_test", JStr ("Record created: " ++ record_id)) ]))))
    (fun error_ =>
       log ("Manual test failed: " ++ message error_) error ;;;
       ret (mkResponse 500 (Json (JObj
              [ ("success", JBool false);
                ("error", JStr (message error_)) ])))).

(** *** Start-up *)

(** Create Failed Payments table structure if needed: nothing is asked of the
    datastore, the [try] block only logs. *)
Definition ensureFailedPaymentsTable : M unit :=
  tryCatch
    (log "Failed Payments table structure ready" info)
    (fun error_ => log ("Error setting up table: " ++ message error_) error).

Definition initialize : M unit :=
  tryCatch
    (ensureFailedPaymentsTable ;;;
     log "Stripe Payment Monitor initialized successfully" info)
    (fun error_ => log ("Initialization error: " ++ message error_) error).

(** [process.env.PORT || 3000], as the template literal renders it. *)
Definition port (PORT : option string) : string :=
  match PORT with
  | Some s => if String.eqb s "" then "3000" else s
  | None => "3000"
  end.

(** The callback of [app.listen]. *)
Definition listening (PORT : option string) : M unit :=
  log ("Stripe Payment Monitor running on port " ++ port PORT) info ;;;
  initialize.

(** [app.get('/logs', ...)]: the last 50 entries and the buffer's length. *)
Definition getLogs (w : World) : list LogEntry * nat :=
  (skipn (List.length (logs w) - 50) (logs w), List.length (logs w)).
End Service.

(** * Properties *)

(** ** The log buffer *)

(** The world after [log(message, level)]. *)
Definition logged (env : Env) (message : string) (level : Level) (w : World) : World :=
  snd (log env message level w).

(** The entry [log(message, level)] builds in world [w]. *)
Definition entry_of (env : Env) (message : string) (level : Level) (w : World) : LogEntry :=
  mkEntry (toISOString env (clock env (reads w))) level message.

(** A run of appends, oldest first. *)
Definition appends (env : Env) (items : list (string * Level)) (w : World) : World :=
  fold_left (fun w item => logged env (fst item) (snd item) w) items w.

(** The world after an effect was recorded. *)
Definition emitted (e : Effect) (w : World) : World := snd (emit e w).

(** The sink functions a trace enters, in order, each with its argument. *)
Definition invocations (tr : list Effect) : list (Sink * JsVal) :=
  flat_map (fun e => match e with Invoke s p => [(s, p)] | _ => [] end) tr.

(** The mails handed to the transport, and the records handed to the
    datastore, in order. *)
Definition mails (tr : list Effect) : list MailOptions :=
  flat_map (fun e => match e with SendMail o => [o] | _ => [] end) tr.

Definition records (tr : list Effect) : list (string * Fields) :=
  flat_map (fun e => match e with CreateRecord t f => [(t, f)] | _ => [] end) tr.

(** The world after the clock was read. *)
Definition ticked (env : Env) (w : World) : World := snd (newDate env w).

(** The buffer holds an entry of this level and message. *)
Definition has_entry (l : Level) (text : string) (w : World) : Prop :=
  exists entry, In entry (logs w) /\ level entry = l /\ entry_message entry = text.

(** The send of the alert for [paymentData] raises an error (while the alert
    is composed, or in the transport), whenever it is attempted. *)
Definition alert_fails (env : Env) (paymentData : JsVal) : Prop :=
  forall w, exists e w', alert_attempt env paymentData w = (Throw e, w').

(** The record sink creates the record for [paymentData], whenever called. *)
Definition record_succeeds (env : Env) (paymentData : JsVal) : Prop :=
  forall w, exists id w', updateAirtableFailedPayment env paymentData w = (Normal id, w').

(** Creating the record for [paymentData] raises [e] (while the fields are
    composed, or in the datastore), whenever it is attempted. *)
Definition record_fails (env : Env) (paymentData : JsVal) (e : JsError) : Prop :=
  forall w, exists w', record_attempt env paymentData w = (Throw e, w').

(** ** Sample runs

    A runtime with a stopped clock, no webhook secret, and collaborators
    that answer every call the same way. *)

(** [Number::toString] on the numbers a sample converts: the integral doubles
    below [2^53] in magnitude and the non-finite ones. *)
Definition sample_NumberToString (x : float) : string :=
  match Prim2SF x with
  | S754_nan => "NaN"
  | S754_infinity false => "Infinity"
  | S754_infinity true => "-Infinity"
  | S754_zero _ => "0"
  | S754_finite s m e =>
      if ((e <=? 0) && (Z.pos m mod 2 ^ (- e) =? 0))%Z
      then (if s then "-" else "") ++ nat_digits (Z.to_N (Z.pos m / 2 ^ (- e)))
      else ""
  end.

(** [StringToNumber] on the strings a sample converts: the empty string is
    zero, text that is no numeric literal is [NaN]. *)
Definition sample_StringToNumber (s : string) : float :=
  if String.eqb s "" then 0%float else nan.

Definition sample_payment : JsVal :=
  JObj [("id", JStr "ch_1"); ("amount", JNum 4999); ("currency", JStr "usd")].

Definition sample_event (type : string) : JsVal :=
  JObj [("type", JStr type); ("data", JObj [("object", sample_payment)])].

Definition quote : string := String (ascii_of_nat 34) "".

(** The request body [{"type":"customer.created"}]. *)
Definition unknown_body : string :=
  "{" ++ quote ++ "type" ++ quote ++ ":" ++ quote ++ "customer.created" ++ quote ++ "}".

(** The request body [{"type":"charge.failed"}]: an event without a payload. *)
Definition bare_body : string :=
  "{" ++ quote ++ "type" ++ quote ++ ":" ++ quote ++ "charge.failed" ++ quote ++ "}".

(** The request body
    [{"type":"charge.failed","data":{"object":{"id":"ch_1","amount":4999,"currency":"usd"}}}]. *)
Definition charge_body : string :=
  "{" ++ quote ++ "type" ++ quote ++ ":" ++ quote ++ "charge.failed" ++ quote ++ "," ++
  quote ++ "data" ++ quote ++ ":{" ++ quote ++ "object" ++ quote ++ ":{" ++
  quote ++ "id" ++ quote ++ ":" ++ quote ++ "ch_1" ++ quote ++ "," ++
  quote ++ "amount" ++ quote ++ ":4999," ++
  quote ++ "currency" ++ quote ++ ":" ++ quote ++ "usd" ++ quote ++ "}}}".

(** [JSON.parse] on the bodies of the sample requests; the empty body is the
    malformed one. *)
Definition sample_parse (text : string) : Completion JsVal :=
  if String.eqb text charge_body then Normal (sample_event "charge.failed")
  else if String.eqb text bare_body then Normal (JObj [("type", JStr "charge.failed")])
  else if String.eqb text unknown_body then Normal (JObj [("type", JStr "customer.created")])
  else Throw (mkError "SyntaxError" "Unexpected end of JSON input").

Definition sample_env (mail : Completion unit) (store : Completion string) : Env :=
  {| STRIPE_WEBHOOK_SECRET := None;
     GMAIL_USER := Some "alerts@example.com";
     constructEvent := fun _ _ _ =>
       Throw (mkError "StripeSignatureVerificationError"
                      "No signatures found matching the expected signature for payload");
     JSON_parse := sample_parse;
     sendMail := fun _ => mail;
     createRecord := fun _ _ => store;
     clock := fun _ => 1756504922797%Z;
     toISOString := fun _ => "2025-08-29T22:02:02.797Z";
     toLocaleString := fun _ => "8/29/2025, 10:02:02 PM";
     NumberToString := sample_NumberToString;
     StringToNumber := sample_StringToNumber |}.

Definition mail_down : Completion unit :=
  Throw (mkError "Error" "Invalid login: 535-5.7.8 Username and Password not accepted").

Definition store_down : Completion string :=
  Throw (mkError "AirtableError" "You are not authorized to perform this operation").

Definition env_up : Env := sample_env (Normal tt) (Normal "rec0001").
Definition env_mail_down : Env := sample_env mail_down (Normal "rec0001").
Definition env_store_down : Env := sample_env (Normal tt) store_down.

(** A full buffer: a hundred entries, numbered from the oldest. *)
Definition full_world : World :=
  mkWorld
    (map (fun k => mkEntry "2025-08-29T22:00:00.000Z" info
                     ("entry " ++ nat_digits (N.of_nat k)))
         (seq 0 100))
    [] 0 [].

(** The optional properties of a payment object, each with the record field
    it fills. *)
Definition optional_fields : list (string * string) :=
  [ ("customer_email", "Customer Email");
    ("customer", "Customer ID");
    ("failure_code", "Failure Code");
    ("failure_message", "Failure Message");
    ("description", "Description") ].

(** The value of an own property, [undefined] when there is none. *)
Definition own (k : string) (props : list (string * JsVal)) : JsVal :=
  match assoc k props with
  | Some v => v
  | None => JUndefined
  end.

(** The last [n] items of a list, oldest first ([l.slice(-n)]). *)
Definition recent {A} (n : nat) (l : list A) : list A :=
  skipn (List.length l - n) l.

(** The entries a run of appends builds when it starts at clock read [r]. *)
Fixpoint entries (env : Env) (items : list (string * Level)) (r : nat) : list LogEntry :=
  match items with
  | [] => []
  | (message, level) :: rest =>
      mkEntry (toISOString env (clock env r)) level message :: entries env rest (S r)
  end.

(** A computation moves the world along [R], however it completes. *)
Definition respects {A} (R : World -> World -> Prop) (m : M A) : Prop :=
  forall w r w', m w = (r, w') -> R w w'.

(** The buffer's bound is carried from one world to the next. *)
Definition keeps_bound (w w' : World) : Prop :=
  (List.length (logs w) <= 100)%nat -> (List.length (logs w') <= 100)%nat.

(** A call that leaves the process goes where the module sends it: a mail
    from and to [GMAIL_USER], a record to the table "Failed Payments". *)
Definition addressed (env : Env) (e : Effect) : Prop :=
  match e with
  | Invoke _ _ => True
  | SendMail options => from options = GMAIL_USER env /\ to options = GMAIL_USER env
  | CreateRecord table _ => table = "Failed Payments"
  end.

(** The trace grows by effects that all satisfy [P]. *)
Definition adds (P : Effect -> Prop) (w w' : World) : Prop :=
  exists added, trace w' = (trace w ++ added)%list /\ Forall P added.

(** The first statements of [processFailedPayment]'s [try] block, up to the
    text of its first log line: the payment object, its id and its amount. *)
Definition payment_of (env : Env) (eventData : JsVal) : Completion (JsVal * string * string) :=
  cbind (get eventData "data") (fun data =>
  cbind (get data "object") (fun paymentData =>
  cbind (idText env paymentData) (fun id =>
  cbind (displayAmount env paymentData) (fun amount =>
  Normal (paymentData, id, amount))))).

(** [`${event.type}`] *)
Definition typeText (env : Env) (event : JsVal) : Completion string :=
  cbind (get event "type") (ToString env).

(** The mails and records a run adds, each at most [n]. *)
Definition attempts (n : nat) (w w' : World) : Prop :=
  exists ms rs,
    mails (trace w') = (mails (trace w) ++ ms)%list /\
    records (trace w') = (records (trace w) ++ rs)%list /\
    (List.length ms <= n)%nat /\ (List.length rs <= n)%nat.

(** The record the test run composes when its first clock read is the
    [r]-th of the run. *)
Definition test_record (env : Env) (r : nat) : Fields :=
  [ ("Payment ID", JStr ("TEST_" ++ integer_digits (clock env r)));
    ("Amount", JNum 99.99%float);
    ("Currency", JStr "USD");
    ("Customer Email", JStr "test@example.com");
    ("Failure Code", JStr "TEST");
    ("Failure Message", JStr "This is a test record");
    ("Failed At", JStr (toISOString env (clock env (S r))));
    ("Status", JStr "Test") ].

(** The [catch] block of the test handler, entered with [e] in world [w]. *)
Definition test_failed (env : Env) (e : JsError) (w : World) : Completion Response * World :=
  (Normal (mkResponse 500
             (Json (JObj [("success", JBool false); ("error", JStr (message e))]))),
   logged env ("Manual test failed: " ++ message e) error w).

(** The answer of a test run that went through, for the created record's id. *)
Definition test_passed (record_id : string) : Response :=
  mkResponse 200 (Json (JObj
    [ ("success", JBool true);
      ("message", JStr "Test completed successfully");
      ("gmail_test", JStr "Email sent");
      ("airtable_test", JStr ("Record created: " ++ record_id)) ])).

(** The [catch] block of the webhook handler, entered with [e] in world [w]. *)
Definition rejected (env : Env) (e : JsError) (w : World) : Completion Response * World :=
  (Normal (mkResponse 400 (Text ("Webhook error: " ++ message e))),
   logged env ("Webhook error: " ++ message e) error w).

(** The same runtime with another [JSON.parse]. *)
Definition with_parse (env : Env) (parse : string -> Completion JsVal) : Env :=
  {| STRIPE_WEBHOOK_SECRET := STRIPE_WEBHOOK_SECRET env;
     GMAIL_USER := GMAIL_USER env;
     constructEvent := constructEvent env;
     JSON_parse := parse;
     sendMail := sendMail env;
     createRecord := createRecord env;
     clock := clock env;
     toISOString := toISOString env;
     toLocaleString := toLocaleString env;
     NumberToString := NumberToString env;
     StringToNumber := StringToNumber env |}.

(** A runtime like [sample_env] whose [JSON.parse] and secret are given. *)
Definition sample_env_with (secret : option string) (parse : string -> Completion JsVal)
    (mail : Completion unit) (store : Completion string) : Env :=
  {| STRIPE_WEBHOOK_SECRET := secret;
     GMAIL_USER := GMAIL_USER (sample_env mail store);
     constructEvent := constructEvent (sample_env mail store);
     JSON_parse := parse;
     sendMail := sendMail (sample_env mail store);
     createRecord := createRecord (sample_env mail store);
     clock := clock (sample_env mail store);
     toISOString := toISOString (sample_env mail store);
     toLocaleString := toLocaleString (sample_env mail store);
     NumberToString := NumberToString (sample_env mail store);
     StringToNumber := StringToNumber (sample_env mail store) |}.

(** A hundred and twenty appends, numbered from the first. *)
Definition many_items : list (string * Level) :=
  map (fun k => ("event " ++ nat_digits (N.of_nat k), info)) (seq 0 120).

Section LogBuffer.
Variable env : Env.

Lemma log_returns message level w :
  log env message level w = (Normal tt, logged env message level w).
Proof. reflexivity. Qed.

Lemma logs_logged message level w :
  logs (logged env message level w) = push (entry_of env message level w) (logs w).
Proof. reflexivity. Qed.

Lemma trace_logged message level w :
  trace (logged env message level w) = trace w.
Proof. reflexivity. Qed.

Lemma reads_logged message level w :
  reads (logged env message level w) = S (reads w).
Proof. reflexivity. Qed.

Lemma push_length entry buffer :
  List.length (push entry buffer) =
  if (MAX_LOGS <=? List.length buffer)%nat then List.length buffer
  else S (List.length buffer).
Proof.
  unfold push. rewrite length_app. cbn [List.length].
  replace (List.length buffer + 1)%nat with (S (List.length buffer)) by lia.
  destruct (Nat.ltb_spec MAX_LOGS (S (List.length buffer)));
    destruct (Nat.leb_spec MAX_LOGS (List.length buffer)); try lia.
  - destruct buffer; cbn in *; [unfold MAX_LOGS in *; lia|].
    rewrite length_app. cbn. lia.
  - rewrite length_app. cbn. lia.
Qed.

Lemma push_bounded entry buffer :
  (List.length buffer <= MAX_LOGS)%nat ->
  (List.length (push entry buffer) <= MAX_LOGS)%nat.
Proof.
  intros H. rewrite push_length.
  destruct (Nat.leb_spec MAX_LOGS (List.length buffer)); lia.
Qed.

Lemma push_not_full entry buffer :
  (List.length buffer < MAX_LOGS)%nat -> push entry buffer = (buffer ++ [entry])%list.
Proof.
  intros H. unfold push. rewrite length_app. cbn [List.length].
  destruct (Nat.ltb_spec MAX_LOGS (List.length buffer + 1)); [lia | reflexivity].
Qed.

Lemma push_full entry oldest rest :
  List.length (oldest :: rest) = MAX_LOGS ->
  push entry (oldest :: rest) = (rest ++ [entry])%list.
Proof.
  intros H. unfold push. rewrite length_app. cbn [List.length] in *.
  destruct (Nat.ltb_spec MAX_LOGS (S (List.length rest) + 1)); [reflexivity | lia].
Qed.

(** Whatever the buffer holds, the entry just pushed is its last one, and the
    one pushed before it stays in front of it. *)
Lemma push_last entry buffer :
  exists front, push entry buffer = (front ++ [entry])%list.
Proof.
  destruct buffer as [|a rest].
  - exists []. reflexivity.
  - unfold push. destruct (MAX_LOGS <? _)%nat.
    + exists rest. reflexivity.
    + exists (a :: rest). reflexivity.
Qed.

Lemma push_keeps_recent entry x front back :
  (S (List.length back) < MAX_LOGS)%nat ->
  exists front',
    push entry (front ++ x :: back) = (front' ++ x :: back ++ [entry])%list.
Proof.
  intros H. destruct front as [|a rest].
  - exists []. cbn [app]. apply (push_not_full entry (x :: back)). cbn. lia.
  - unfold push. destruct (MAX_LOGS <? _)%nat.
    + exists rest. cbn. now rewrite <- app_assoc.
    + exists (a :: rest). now rewrite <- app_assoc.
Qed.

(** An entry stays in the buffer while at most three entries are pushed after
    it. *)
Lemma pushed_survives (x e1 e2 e3 : LogEntry) (buffer : list LogEntry) :
  In x (push x buffer) /\
  In x (push e1 (push x buffer)) /\
  In x (push e2 (push e1 (push x buffer))) /\
  In x (push e3 (push e2 (push e1 (push x buffer)))).
Proof.
  destruct (push_last x buffer) as [f0 E0]. rewrite E0.
  destruct (push_keeps_recent e1 x f0 []) as [f1 E1]; [cbn; unfold MAX_LOGS; lia|].
  rewrite E1.
  destruct (push_keeps_recent e2 x f1 [e1]) as [f2 E2]; [cbn; unfold MAX_LOGS; lia|].
  cbn [app] in *. rewrite E2.
  destruct (push_keeps_recent e3 x f2 [e1; e2]) as [f3 E3]; [cbn; unfold MAX_LOGS; lia|].
  cbn [app] in *. rewrite E3.
  repeat split; apply in_or_app; right; now left.
Qed.

Lemma appends_bounded items w :
  (List.length (logs w) <= MAX_LOGS)%nat ->
  (List.length (logs (appends env items w)) <= MAX_LOGS)%nat.
Proof.
  revert w. induction items as [|[m l] items IH]; intros w H.
  - exact H.
  - change (appends env ((m, l) :: items) w)
      with (appends env items (logged env m l w)).
    apply IH. rewrite logs_logged. now apply push_bounded.
Qed.

End LogBuffer.

(** ** The sinks and the failure-processing routine *)

Section Pipeline.
Variable env : Env.

Ltac run :=
  unfold bind, lift, ret, throw, tryCatch;
  cbv beta iota;
  rewrite ?log_returns;
  cbv beta iota.

Ltac split_match :=
  match goal with
  | |- context [match ?c with Normal _ => _ | Throw _ => _ end] =>
      let E := fresh "E" in destruct c eqn:E
  | |- context [let (_, _) := ?c in _] =>
      let E := fresh "E" in destruct c eqn:E
  end.

Lemma emit_returns e w : emit e w = (Normal tt, emitted e w).
Proof. reflexivity. Qed.

Lemma trace_emitted e w : trace (emitted e w) = (trace w ++ [e])%list.
Proof. reflexivity. Qed.

Lemma logs_emitted e w : logs (emitted e w) = logs w.
Proof. reflexivity. Qed.

Lemma invocations_app tr1 tr2 :
  invocations (tr1 ++ tr2) = (invocations tr1 ++ invocations tr2)%list.
Proof. apply flat_map_app. Qed.

(** Composing the record's fields reads the clock and nothing else. *)
Lemma recordFields_world p w r w' :
  recordFields env p w = (r, w') -> logs w' = logs w /\ trace w' = trace w.
Proof.
  unfold recordFields, newDate. run.
  repeat split_match; cbn; intros H; inversion H; subst; cbn; auto.
Qed.

Lemma record_attempt_cases p w :
  (exists fields w0 id,
      recordFields env p w = (Normal fields, w0) /\
      createRecord env "Failed Payments" fields = Normal id /\
      record_attempt env p w =
        (Normal id,
         logged env ("Failed payment record created in Airtable: " ++ id) info
           (emitted (CreateRecord "Failed Payments" fields) w0)))
  \/
  (exists e w1,
      record_attempt env p w = (Throw e, w1) /\
      logs w1 = logs w /\ invocations (trace w1) = invocations (trace w)).
Proof.
  unfold record_attempt, base_create. run.
  destruct (recordFields env p w) as [[fields|e] w0] eqn:E;
    destruct (recordFields_world _ _ _ _ E) as [Hl Ht].
  - rewrite emit_returns.
    destruct (createRecord env "Failed Payments" fields) as [id|e] eqn:C.
    + left. exists fields, w0, id. repeat split; auto.
    + right. exists e. eexists. repeat split; auto.
      rewrite trace_emitted, Ht, invocations_app. cbn. now rewrite app_nil_r.
  - right. exists e, w0. repeat split; auto. now rewrite Ht.
Qed.

Lemma updateAirtable_cases p w :
  let w_in := emitted (Invoke RecordSink p) w in
  (exists fields w0 id,
      recordFields env p w_in = (Normal fields, w0) /\
      createRecord env "Failed Payments" fields = Normal id /\
      updateAirtableFailedPayment env p w =
        (Normal id,
         logged env ("Failed payment record created in Airtable: " ++ id) info
           (emitted (CreateRecord "Failed Payments" fields) w0)))
  \/
  (exists e w1,
      record_attempt env p w_in = (Throw e, w1) /\
      updateAirtableFailedPayment env p w =
        (Throw e, logged env ("Error creating Airtable record: " ++ message e) error w1) /\
      logs w1 = logs w /\
      invocations (trace w1) = (invocations (trace w) ++ [(RecordSink, p)])%list).
Proof.
  intros w_in. unfold updateAirtableFailedPayment. run. rewrite emit_returns.
  fold w_in.
  destruct (record_attempt_cases p w_in)
    as [(fields & w0 & id & F & C & R) | (e & w1 & R & Hl & Ht)]; rewrite R.
  - left. exists fields, w0, id. auto.
  - right. exists e, w1. run. repeat split; auto.
    rewrite Ht. unfold w_in. now rewrite trace_emitted, invocations_app.
Qed.

Lemma alert_attempt_cases p w :
  (exists options id,
      sendMail env options = Normal tt /\
      alert_attempt env p w =
        (Normal tt,
         logged env ("Failed payment alert sent via Gmail for payment " ++ id) info
           (emitted (SendMail options) (ticked env w))))
  \/
  (exists e w1,
      alert_attempt env p w = (Throw e, w1) /\
      logs w1 = logs w /\ invocations (trace w1) = invocations (trace w)).
Proof.
  unfold alert_attempt, transporter_sendMail. run.
  change (newDate env w) with (Normal (clock env (reads w)), ticked env w).
  cbv beta iota.
  destruct (mailOptions env _ p) as [options|e].
  - rewrite emit_returns.
    destruct (sendMail env options) as [[]|e] eqn:S.
    + destruct (idText env p) as [id|e].
      * left. exists options, id. auto.
      * right. exists e. eexists. repeat split.
        rewrite trace_emitted, invocations_app. cbn. now rewrite app_nil_r.
    + right. exists e. eexists. repeat split.
      rewrite trace_emitted, invocations_app. cbn. now rewrite app_nil_r.
  - right. exists e. eexists. repeat split.
Qed.

(** The email sink returns normally in every world and enters the trace
    once; it pushes one log entry, of level [error] when the attempt threw. *)
Lemma sendFailedPaymentAlert_cases p w :
  let w_in := emitted (Invoke EmailSink p) w in
  exists w' entry,
    sendFailedPaymentAlert env p w = (Normal tt, w') /\
    logs w' = push entry (logs w) /\
    invocations (trace w') = (invocations (trace w) ++ [(EmailSink, p)])%list /\
    (forall e w1, alert_attempt env p w_in = (Throw e, w1) ->
       w' = logged env ("Error sending Gmail alert: " ++ message e) error w1 /\
       level entry = error /\
       entry_message entry = "Error sending Gmail alert: " ++ message e).
Proof.
  intros w_in. unfold sendFailedPaymentAlert. run. rewrite emit_returns.
  fold w_in.
  assert (invocations (trace w_in) = (invocations (trace w) ++ [(EmailSink, p)])%list)
    as Hin by (unfold w_in; now rewrite trace_emitted, invocations_app).
  destruct (alert_attempt_cases p w_in)
    as [(options & id & S & R) | (e & w1 & R & Hl & Ht)]; rewrite R; run.
  - eexists. eexists. split; [reflexivity|]. split; [|split].
    + rewrite logs_logged. reflexivity.
    + rewrite trace_logged, trace_emitted, invocations_app. cbn.
      rewrite app_nil_r. exact Hin.
    + intros e w1 H. discriminate H.
  - eexists. eexists. split; [reflexivity|]. split; [|split].
    + rewrite logs_logged, Hl. reflexivity.
    + rewrite trace_logged, Ht. exact Hin.
    + intros e' w1' H. inversion H; subst. auto.
Qed.

(** Once the payment object is read and its id and amount are rendered for
    the first log line, both sinks run, and only the record sink decides how
    the routine completes. *)
Lemma processFailedPayment_reaches event data p id amount w :
  get event "data" = Normal data ->
  get data "object" = Normal p ->
  idText env p = Normal id ->
  displayAmount env p = Normal amount ->
  processFailedPayment env event w =
    let w1 := logged env ("Processing failed payment: " ++ id ++ ", Amount: $" ++ amount)
                info w in
    let w2 := snd (sendFailedPaymentAlert env p w1) in
    match updateAirtableFailedPayment env p w2 with
    | (Normal _, w3) =>
        (Normal tt, logged env ("Successfully processed failed payment: " ++ id) info w3)
    | (Throw e, w3) =>
        (Throw e, logged env ("Error processing failed payment: " ++ message e) error w3)
    end.
Proof.
  intros Hd Ho Hi Ha. unfold processFailedPayment. run.
  rewrite Hd. cbv beta iota. rewrite Ho. cbv beta iota.
  rewrite Hi. cbv beta iota. rewrite Ha. run.
  destruct (sendFailedPaymentAlert_cases p
              (logged env ("Processing failed payment: " ++ id ++ ", Amount: $" ++ amount)
                 info w)) as (w2 & entry & R & _).
  rewrite R. cbn [snd]. cbv beta iota.
  destruct (updateAirtableFailedPayment env p w2) as [[rid|e] w3]; run; reflexivity.
Qed.

Lemma ToString_string t : ToString env (JStr t) = Normal t.
Proof. reflexivity. Qed.

Lemma dispatch_recognized event t w :
  get event "type" = Normal (JStr t) ->
  recognized t = true ->
  dispatch env event w = processFailedPayment env event w.
Proof.
  intros Ht Hr. unfold dispatch. run. rewrite Ht. cbv beta iota.
  unfold recognized in Hr.
  destruct (String.eqb t "charge.failed"); [reflexivity|].
  destruct (String.eqb t "payment_intent.payment_failed"); [reflexivity|].
  destruct (String.eqb t "invoice.payment_failed"); [reflexivity|].
  destruct (String.eqb t "payment_method.attach_failed"); [reflexivity|].
  discriminate Hr.
Qed.

Lemma dispatch_unrecognized event t w :
  get event "type" = Normal (JStr t) ->
  recognized t = false ->
  dispatch env event w =
    (Normal tt, logged env ("Unhandled event type: " ++ t) info w).
Proof.
  intros Ht Hr. unfold dispatch. run. rewrite Ht. cbv beta iota.
  unfold recognized in Hr.
  destruct (String.eqb t "charge.failed"); [discriminate Hr|].
  destruct (String.eqb t "payment_intent.payment_failed"); [discriminate Hr|].
  destruct (String.eqb t "invoice.payment_failed"); [discriminate Hr|].
  destruct (String.eqb t "payment_method.attach_failed"); [discriminate Hr|].
  apply log_returns.
Qed.

Lemma webhook_recognized req event t w :
  verify env req = Normal event ->
  get event "type" = Normal (JStr t) ->
  recognized t = true ->
  webhook env req w =
    match processFailedPayment env event
            (logged env ("Received Stripe webhook: " ++ t) info w) with
    | (Normal _, w') => (Normal received, w')
    | (Throw e, w') =>
        (Normal (mkResponse 400 (Text ("Webhook error: " ++ message e))),
         logged env ("Webhook error: " ++ message e) error w')
    end.
Proof.
  intros Hv Ht Hr. unfold webhook. run.
  rewrite Hv. cbv beta iota. rewrite Ht. cbv beta iota.
  rewrite ToString_string. run.
  rewrite (dispatch_recognized _ _ _ Ht Hr).
  destruct (processFailedPayment env event _) as [[[]|e] w']; run; reflexivity.
Qed.

Lemma webhook_unrecognized req event t w :
  verify env req = Normal event ->
  get event "type" = Normal (JStr t) ->
  recognized t = false ->
  webhook env req w =
    (Normal received,
     logged env ("Unhandled event type: " ++ t) info
       (logged env ("Received Stripe webhook: " ++ t) info w)).
Proof.
  intros Hv Ht Hr. unfold webhook. run.
  rewrite Hv. cbv beta iota. rewrite Ht. cbv beta iota.
  rewrite ToString_string. run.
  rewrite (dispatch_unrecognized _ _ _ Ht Hr). reflexivity.
Qed.

Lemma webhook_rejected req e w :
  verify env req = Throw e ->
  webhook env req w =
    (Normal (mkResponse 400 (Text ("Webhook error: " ++ message e))),
     logged env ("Webhook error: " ++ message e) error w).
Proof.
  intros Hv. unfold webhook. run. rewrite Hv. run. reflexivity.
Qed.

(** The record's fields are composed only if the amount converts. *)
Lemma recordFields_amount p w fields w0 :
  recordFields env p w = (Normal fields, w0) ->
  exists a, majorUnits env p = Normal a /\
            displayAmount env p = Normal (toFixed2 (NumberToString env) a).
Proof.
  unfold recordFields, displayAmount. run.
  destruct (get p "id") as [i|]; [|discriminate].
  destruct (majorUnits env p) as [x|]; [|discriminate].
  intros _. exists x. split; reflexivity.
Qed.

Lemma record_succeeds_amount p :
  record_succeeds env p -> exists amount, displayAmount env p = Normal amount.
Proof.
  intros H. destruct (H initial) as (id & w' & U).
  destruct (updateAirtable_cases p initial)
    as [(fields & w0 & id' & F & _) | (e & w1 & _ & U' & _)].
  - destruct (recordFields_amount _ _ _ _ F) as (a & _ & D). eauto.
  - rewrite U in U'. discriminate U'.
Qed.

Lemma updateAirtable_invocations p w r w' :
  updateAirtableFailedPayment env p w = (r, w') ->
  invocations (trace w') = (invocations (trace w) ++ [(RecordSink, p)])%list.
Proof.
  intros U.
  destruct (updateAirtable_cases p w)
    as [(fields & w0 & id & F & _ & U') | (e & w1 & _ & U' & _ & Hin)];
    rewrite U in U'; inversion U'; subst.
  - destruct (recordFields_world _ _ _ _ F) as [_ Ht].
    rewrite trace_logged, trace_emitted, Ht, trace_emitted, !invocations_app.
    cbn. now rewrite app_nil_r.
  - now rewrite trace_logged.
Qed.

(** Both sinks are entered, the email sink first, whichever way each of them
    completes. *)
Lemma processFailedPayment_invocations event data p id amount w :
  get event "data" = Normal data ->
  get data "object" = Normal p ->
  idText env p = Normal id ->
  displayAmount env p = Normal amount ->
  invocations (trace (snd (processFailedPayment env event w))) =
    (invocations (trace w) ++ [(EmailSink, p); (RecordSink, p)])%list.
Proof.
  intros Hd Ho Hi Ha.
  rewrite (processFailedPayment_reaches event data p id amount w Hd Ho Hi Ha).
  cbv zeta.
  set (w1 := logged env _ info w).
  destruct (sendFailedPaymentAlert_cases p w1) as (w2 & entry & R & _ & Hin & _).
  rewrite R. cbn [snd].
  destruct (updateAirtableFailedPayment env p w2) as [r w3] eqn:U.
  apply updateAirtable_invocations in U.
  assert (invocations (trace w3) =
          (invocations (trace w) ++ [(EmailSink, p); (RecordSink, p)])%list) as H.
  { rewrite U, Hin. unfold w1. rewrite trace_logged. now rewrite <- app_assoc. }
  destruct r; cbn [snd]; rewrite trace_logged; exact H.
Qed.

Lemma get_object props k : get (JObj props) k = Normal (own k props).
Proof. unfold get, own. now destruct (assoc k props). Qed.

Lemma getOpt_total v k : exists t, getOpt v k = Normal t.
Proof.
  destruct v; cbn; eauto.
  destruct (assoc k props); eauto.
Qed.

Lemma or_else_truthy v fallback :
  truthy fallback = true -> truthy (or_else v fallback) = true.
Proof. intros H. unfold or_else. now destruct (truthy v) eqn:E. Qed.

Lemma truthy_defined v : truthy v = true -> v <> JUndefined /\ v <> JNull.
Proof. destruct v; cbn; intros H; split; congruence. Qed.

Lemma orNA_object props k :
  orNA (JObj props) k = Normal (or_else (own k props) (JStr "N/A")).
Proof. unfold orNA. now rewrite get_object. Qed.

End Pipeline.

(** ** Sample evaluations *)

Example toFixed2_4999 : toFixed2 sample_NumberToString (PrimFloat.div 4999 100) = "49.99".
Proof. reflexivity. Qed.

Example toFixed2_cents : toFixed2 sample_NumberToString (PrimFloat.div 5 100) = "0.05".
Proof. reflexivity. Qed.

Example toFixed2_whole : toFixed2 sample_NumberToString (PrimFloat.div 120000 100) = "1200.00".
Proof. reflexivity. Qed.

Example toFixed2_negative : toFixed2 sample_NumberToString (PrimFloat.div (-150) 100) = "-1.50".
Proof. reflexivity. Qed.

(** [(1.005).toFixed(2)] is ["1.00"]: the double nearest to 1.005 lies below it. *)
Example toFixed2_below_half : toFixed2 sample_NumberToString 1.005%float = "1.00".
Proof. reflexivity. Qed.

Example toFixed2_missing_amount :
  displayAmount env_up (JObj [("id", JStr "in_1"); ("currency", JStr "eur")]) = Normal "NaN".
Proof. reflexivity. Qed.

Example toUpperCase_usd : toUpperCase "usd" = "USD".
Proof. reflexivity. Qed.

(** Both sinks succeed: one mail, one record, 200. *)
Example charge_failed_delivered :
  let run := webhook env_up (mkRequest charge_body None) initial in
  fst run = Normal received /\
  invocations (trace (snd run)) = [(EmailSink, sample_payment); (RecordSink, sample_payment)] /\
  map subject (mails (trace (snd run))) = ["🚨 Payment Failed: $49.99"] /\
  map (fun r => assoc "Status" (snd r)) (records (trace (snd run))) = [Some (JStr "Failed")] /\
  map level (logs (snd run)) = [info; info; info; info; info].
Proof. vm_compute. repeat split; reflexivity. Qed.

(** The record sink throws after the mail went out: the trace keeps the mail,
    and the answer is 400. *)
Example record_failure_after_mail_sent :
  let run := webhook env_store_down (mkRequest charge_body None) initial in
  fst run =
    Normal (mkResponse 400
              (Text "Webhook error: You are not authorized to perform this operation")) /\
  map subject (mails (trace (snd run))) = ["🚨 Payment Failed: $49.99"] /\
  List.length (records (trace (snd run))) = 1%nat /\
  map level (logs (snd run)) = [info; info; info; error; error; error].
Proof. vm_compute. repeat split; reflexivity. Qed.

(** * The claims *)

(** C4. After every append the log buffer holds at most 100 entries: in every
    run of appends from the empty buffer, and after any single append to a
    buffer within the bound.  An append to a buffer of exactly 100 entries
    drops the oldest entry and nothing else: the other 99 keep their order
    and the new entry follows them. *)
Theorem log_buffer_bounded_fifo (env : Env) :
  (forall items, (List.length (logs (appends env items initial)) <= 100)%nat) /\
  (forall message level w,
      (List.length (logs w) <= 100)%nat ->
      (List.length (logs (logged env message level w)) <= 100)%nat) /\
  (forall message level w oldest rest,
      logs w = oldest :: rest ->
      List.length (logs w) = 100%nat ->
      logs (logged env message level w) =
        (rest ++ [entry_of env message level w])%list).
Proof.
  split; [|split].
  - intros items. apply (appends_bounded env items initial). cbn. unfold MAX_LOGS. lia.
  - intros message level w H. rewrite logs_logged. now apply push_bounded.
  - intros message level w oldest rest E H. rewrite logs_logged, E.
    apply push_full. now rewrite <- E.
Qed.

Lemma log_buffer_bounded_fifo_witness :
  (List.length (logs (logged env_up "one more" info full_world)) <= 100)%nat /\
  logs (logged env_up "one more" info full_world) =
    (List.tl (logs full_world) ++ [entry_of env_up "one more" info full_world])%list.
Proof.
  split.
  - apply (proj1 (proj2 (log_buffer_bounded_fifo env_up)) "one more" info full_world).
    vm_compute. lia.
  - apply (proj2 (proj2 (log_buffer_bounded_fifo env_up)) "one more" info full_world
             (List.hd (entry_of env_up "" info full_world) (logs full_world))
             (List.tl (logs full_world))); reflexivity.
Defined.

(** C8. A payload with amount 4999 (minor units) and currency "usd" is shown
    with the amount "49.99" and the currency "USD". *)
Theorem amount_currency_round_trip (env : Env) (paymentData : JsVal) :
  get paymentData "amount" = Normal (JNum 4999) ->
  get paymentData "currency" = Normal (JStr "usd") ->
  displayAmount env paymentData = Normal "49.99" /\
  currencyCode paymentData = Normal "USD".
Proof.
  intros Ha Hc. unfold displayAmount, majorUnits, currencyCode.
  rewrite Ha, Hc. split; reflexivity.
Qed.

Lemma amount_currency_round_trip_witness :
  displayAmount env_up sample_payment = Normal "49.99" /\
  currencyCode sample_payment = Normal "USD".
Proof.
  apply (amount_currency_round_trip env_up sample_payment); reflexivity.
Defined.

(** C1. The email sink contains its failures.  For every payment payload and
    in every world the sink returns normally; when the send raised an error
    (while the alert was composed or in the transport), the sink logged it at
    level [error] and the caller sees nothing of it.  In particular, for a
    verified event of a recognized type whose payload reaches the sinks, when
    the email send fails and the record sink succeeds, the webhook answers
    200 [{received: true}], the buffer holds the [error] entry of the email
    failure, and the record was created. *)
Theorem email_sink_failure_contained (env : Env) :
  (forall paymentData w,
      exists w',
        sendFailedPaymentAlert env paymentData w = (Normal tt, w') /\
        forall e w1,
          alert_attempt env paymentData (emitted (Invoke EmailSink paymentData) w)
            = (Throw e, w1) ->
          w' = logged env ("Error sending Gmail alert: " ++ message e) error w1 /\
          has_entry error ("Error sending Gmail alert: " ++ message e) w') /\
  (forall req w event t data paymentData id,
      verify env req = Normal event ->
      get event "type" = Normal (JStr t) ->
      recognized t = true ->
      get event "data" = Normal data ->
      get data "object" = Normal paymentData ->
      idText env paymentData = Normal id ->
      alert_fails env paymentData ->
      record_succeeds env paymentData ->
      exists w' e fields,
        webhook env req w = (Normal received, w') /\
        has_entry error ("Error sending Gmail alert: " ++ message e) w' /\
        In (CreateRecord "Failed Payments" fields) (trace w') /\
        exists record_id, createRecord env "Failed Payments" fields = Normal record_id).
Proof.
  split.
  - intros p w.
    destruct (sendFailedPaymentAlert_cases env p w) as (w' & entry & R & Hl & _ & Hc).
    exists w'. split; [exact R|].
    intros e w1 A. destruct (Hc e w1 A) as (Hw & Hlvl & Hmsg).
    split; [exact Hw|].
    exists entry. rewrite Hl. split; [|auto].
    destruct (push_last entry (logs w)) as [front ->].
    apply in_or_app. right. now left.
  - intros req w event t data p id Hv Ht Hr Hd Ho Hi Hfail Hrec.
    destruct (record_succeeds_amount env p Hrec) as (amount & Ha).
    rewrite (webhook_recognized env req event t w Hv Ht Hr).
    rewrite (processFailedPayment_reaches env event data p id amount _ Hd Ho Hi Ha).
    cbv zeta.
    set (w1 := logged env _ info (logged env _ info w)).
    destruct (sendFailedPaymentAlert_cases env p w1) as (w2 & entry & R & Hl & _ & Hc).
    rewrite R. cbn [snd].
    destruct (Hfail (emitted (Invoke EmailSink p) w1)) as (e & w1' & A).
    destruct (Hc e w1' A) as (_ & Hlvl & Hmsg).
    destruct (updateAirtable_cases env p w2)
      as [(fields & w0 & rid & F & C & U) | (e' & wx & _ & U & _)].
    + rewrite U. eexists. exists e, fields. split; [reflexivity|].
      destruct (recordFields_world env _ _ _ _ F) as [Hl0 Ht0].
      split; [|split].
      * exists entry. split; [|auto].
        rewrite !logs_logged, logs_emitted, Hl0, logs_emitted, Hl.
        exact (proj1 (proj2 (proj2 (pushed_survives entry _ _ entry (logs w1))))).
      * rewrite !trace_logged, trace_emitted.
        apply in_or_app. right. now left.
      * exists rid. exact C.
    + destruct (Hrec w2) as (rid & w3 & U'). rewrite U in U'. discriminate U'.
Qed.

Lemma email_sink_failure_contained_witness :
  exists w' e fields,
    webhook env_mail_down (mkRequest charge_body None) initial = (Normal received, w') /\
    has_entry error ("Error sending Gmail alert: " ++ message e) w' /\
    In (CreateRecord "Failed Payments" fields) (trace w') /\
    exists record_id,
      createRecord env_mail_down "Failed Payments" fields = Normal record_id.
Proof.
  apply (proj2 (email_sink_failure_contained env_mail_down)
           (mkRequest charge_body None) initial
           (sample_event "charge.failed") "charge.failed"
           (JObj [("object", sample_payment)]) sample_payment "ch_1");
    try reflexivity.
  - intros w. eexists. eexists. reflexivity.
  - intros w. eexists. eexists. reflexivity.
Defined.

(** C2. The record sink propagates its failures.  For every payment payload,
    an error raised while the record is created (while its fields are
    composed or in the datastore) is logged at level [error] and thrown again
    by the sink.  For a verified event of a recognized type whose payload
    reaches the sinks it travels up to the webhook handler, which answers 400
    with the error's message, after the email sink has run. *)
Theorem record_sink_failure_propagates (env : Env) :
  (forall paymentData w e w1,
      record_attempt env paymentData (emitted (Invoke RecordSink paymentData) w)
        = (Throw e, w1) ->
      updateAirtableFailedPayment env paymentData w =
        (Throw e, logged env ("Error creating Airtable record: " ++ message e) error w1) /\
      has_entry error ("Error creating Airtable record: " ++ message e)
        (logged env ("Error creating Airtable record: " ++ message e) error w1)) /\
  (forall req w event t data paymentData id amount e,
      verify env req = Normal event ->
      get event "type" = Normal (JStr t) ->
      recognized t = true ->
      get event "data" = Normal data ->
      get data "object" = Normal paymentData ->
      idText env paymentData = Normal id ->
      displayAmount env paymentData = Normal amount ->
      record_fails env paymentData e ->
      exists w',
        webhook env req w =
          (Normal (mkResponse 400 (Text ("Webhook error: " ++ message e))), w') /\
        has_entry error ("Error creating Airtable record: " ++ message e) w' /\
        invocations (trace w') =
          (invocations (trace w) ++ [(EmailSink, paymentData); (RecordSink, paymentData)])%list).
Proof.
  split.
  - intros p w e w1 A.
    destruct (updateAirtable_cases env p w)
      as [(fields & w0 & rid & F & C & U) | (e' & wx & A' & U & _)].
    + unfold record_attempt in A. unfold bind at 1 in A. rewrite F in A.
      unfold base_create, bind, lift in A. rewrite emit_returns, C in A.
      discriminate A.
    + rewrite A in A'. inversion A'; subst e' wx. split; [exact U|].
      exists (entry_of env ("Error creating Airtable record: " ++ message e) error w1).
      split; [|split; reflexivity].
      rewrite logs_logged.
      destruct (push_last (entry_of env ("Error creating Airtable record: " ++ message e)
                             error w1) (logs w1)) as [front ->].
      apply in_or_app. right. now left.
  - intros req w event t data p id amount e Hv Ht Hr Hd Ho Hi Ha Hfail.
    rewrite (webhook_recognized env req event t w Hv Ht Hr).
    rewrite (processFailedPayment_reaches env event data p id amount _ Hd Ho Hi Ha).
    cbv zeta.
    set (w1 := logged env _ info (logged env _ info w)).
    destruct (sendFailedPaymentAlert_cases env p w1) as (w2 & entry & R & _ & Hin & _).
    rewrite R. cbn [snd].
    destruct (Hfail (emitted (Invoke RecordSink p) w2)) as (w3 & A).
    destruct (updateAirtable_cases env p w2)
      as [(fields & w0 & rid & F & C & U) | (e' & wx & A' & U & Hl & Hin')].
    + unfold record_attempt in A. unfold bind at 1 in A. rewrite F in A.
      unfold base_create, bind, lift in A. rewrite emit_returns, C in A.
      discriminate A.
    + rewrite A in A'. inversion A'; subst e' wx. rewrite U.
      eexists. split; [reflexivity|]. split.
      * exists (entry_of env ("Error creating Airtable record: " ++ message e) error w3).
        split; [|split; reflexivity].
        rewrite !logs_logged.
        exact (proj1 (proj2 (proj2
                 (pushed_survives
                    (entry_of env ("Error creating Airtable record: " ++ message e) error w3)
                    _ _
                    (entry_of env "" info w3) (logs w3))))).
      * rewrite !trace_logged, Hin', Hin. unfold w1. rewrite !trace_logged.
        now rewrite <- app_assoc.
Qed.

Lemma record_sink_failure_propagates_witness :
  exists w',
    webhook env_store_down (mkRequest charge_body None) initial =
      (Normal (mkResponse 400
                 (Text "Webhook error: You are not authorized to perform this operation")),
       w') /\
    has_entry error
      "Error creating Airtable record: You are not authorized to perform this operation" w' /\
    invocations (trace w') = [(EmailSink, sample_payment); (RecordSink, sample_payment)].
Proof.
  apply (proj2 (record_sink_failure_propagates env_store_down)
           (mkRequest charge_body None) initial
           (sample_event "charge.failed") "charge.failed"
           (JObj [("object", sample_payment)]) sample_payment "ch_1" "49.99"
           (mkError "AirtableError" "You are not authorized to perform this operation"));
    try reflexivity.
  intros w. eexists. reflexivity.
Defined.

(** C3, as the code has it.  For every verified event whose type is one of
    [charge.failed], [payment_intent.payment_failed], [invoice.payment_failed]
    and [payment_method.attach_failed], and whose payload [data.object] is
    there with an id and an amount that render for the first log line, the
    dispatcher enters both sinks, the email sink and then the record sink,
    once each.  For every event of any other type string no sink is entered,
    no collaborator is called, and the webhook answers 200
    [{received: true}]. *)
Theorem dispatcher_routing (env : Env) :
  (forall event t data paymentData id amount w,
      get event "type" = Normal (JStr t) ->
      recognized t = true ->
      get event "data" = Normal data ->
      get data "object" = Normal paymentData ->
      idText env paymentData = Normal id ->
      displayAmount env paymentData = Normal amount ->
      invocations (trace (snd (dispatch env event w))) =
        (invocations (trace w) ++ [(EmailSink, paymentData); (RecordSink, paymentData)])%list) /\
  (forall req event t w,
      verify env req = Normal event ->
      get event "type" = Normal (JStr t) ->
      recognized t = false ->
      trace (snd (dispatch env event w)) = trace w /\
      exists w', webhook env req w = (Normal received, w') /\ trace w' = trace w).
Proof.
  split.
  - intros event t data p id amount w Ht Hr Hd Ho Hi Ha.
    rewrite (dispatch_recognized env event t w Ht Hr).
    exact (processFailedPayment_invocations env event data p id amount w Hd Ho Hi Ha).
  - intros req event t w Hv Ht Hr. split.
    + rewrite (dispatch_unrecognized env event t w Ht Hr). reflexivity.
    + rewrite (webhook_unrecognized env req event t w Hv Ht Hr).
      eexists. split; reflexivity.
Qed.

Lemma dispatcher_routing_witness :
  invocations (trace (snd (dispatch env_up (sample_event "invoice.payment_failed") initial))) =
    [(EmailSink, sample_payment); (RecordSink, sample_payment)] /\
  exists w',
    webhook env_up (mkRequest unknown_body None) initial = (Normal received, w') /\
    trace w' = [].
Proof.
  split.
  - apply (proj1 (dispatcher_routing env_up)
             (sample_event "invoice.payment_failed") "invoice.payment_failed"
             (JObj [("object", sample_payment)]) sample_payment "ch_1" "49.99" initial);
      reflexivity.
  - apply (proj2 (dispatcher_routing env_up)
             (mkRequest unknown_body None)
             (JObj [("type", JStr "customer.created")]) "customer.created" initial);
      reflexivity.
Defined.

(** C3 as it was stated fails on an event of a recognized type that carries
    no payload: the body [{"type":"charge.failed"}] passes verification, no
    sink is entered, and the answer is 400. *)
Lemma recognized_event_without_payload :
  let run := webhook env_up (mkRequest bare_body None) initial in
  verify env_up (mkRequest bare_body None) = Normal (JObj [("type", JStr "charge.failed")]) /\
  recognized "charge.failed" = true /\
  invocations (trace (snd run)) = [] /\
  fst run =
    Normal (mkResponse 400
              (Text "Webhook error: Cannot read properties of undefined (reading 'object')")).
Proof. repeat split; reflexivity. Qed.

(** C7, as the code has it.  For a verified event of an unrecognized type the
    webhook answers 200 [{received: true}], enters no sink and calls no
    collaborator, and appends two [info] entries to the log buffer: the
    receipt of the webhook, then the unhandled type. *)
Theorem unknown_event_acknowledged (env : Env) (req : Request) (event : JsVal)
    (t : string) (w : World) :
  verify env req = Normal event ->
  get event "type" = Normal (JStr t) ->
  recognized t = false ->
  exists w' e1 e2,
    webhook env req w = (Normal received, w') /\
    trace w' = trace w /\
    logs w' = push e2 (push e1 (logs w)) /\
    level e1 = info /\ entry_message e1 = "Received Stripe webhook: " ++ t /\
    level e2 = info /\ entry_message e2 = "Unhandled event type: " ++ t /\
    ((List.length (logs w) + 2 <= 100)%nat -> logs w' = (logs w ++ [e1; e2])%list).
Proof.
  intros Hv Ht Hr.
  rewrite (webhook_unrecognized env req event t w Hv Ht Hr).
  eexists. eexists. eexists.
  split; [reflexivity|]. split; [reflexivity|].
  split; [rewrite !logs_logged; reflexivity|].
  repeat (split; [reflexivity|]).
  intros Hlen. rewrite !logs_logged.
  rewrite (push_not_full _ (logs w)) by (unfold MAX_LOGS; lia).
  rewrite push_not_full by (rewrite length_app; cbn; unfold MAX_LOGS; lia).
  now rewrite <- app_assoc.
Qed.

Lemma unknown_event_acknowledged_witness :
  exists w' e1 e2,
    webhook env_up (mkRequest unknown_body None) initial = (Normal received, w') /\
    trace w' = [] /\
    logs w' = push e2 (push e1 []) /\
    level e1 = info /\
    entry_message e1 = "Received Stripe webhook: customer.created" /\
    level e2 = info /\
    entry_message e2 = "Unhandled event type: customer.created" /\
    ((0 + 2 <= 100)%nat -> logs w' = [e1; e2]).
Proof.
  apply (unknown_event_acknowledged env_up (mkRequest unknown_body None)
           (JObj [("type", JStr "customer.created")]) "customer.created" initial);
    reflexivity.
Defined.

(** C7 as it was stated fails: from the empty buffer, the event
    [{"type":"customer.created"}] leaves two [info] entries, not one. *)
Lemma unknown_event_logs_twice :
  let w' := snd (webhook env_up (mkRequest unknown_body None) initial) in
  logs initial = [] /\
  map entry_message (logs w') =
    ["Received Stripe webhook: customer.created";
     "Unhandled event type: customer.created"] /\
  map level (logs w') = [info; info] /\
  List.length (logs w') <> 1%nat.
Proof. repeat split; try reflexivity. cbn. discriminate. Qed.

(** C9. With no webhook secret configured, the event is what [JSON.parse]
    makes of the raw body: nothing is authenticated, and the signature header
    plays no part in the handler's outcome.  When the body is malformed JSON
    the webhook answers 400 with the parser's message, and nothing is
    processed: no sink is entered, no collaborator is called, and the log
    gains the error entry only. *)
Theorem unauthenticated_fallback (env : Env) (req : Request) (w : World) :
  configured_secret env = None ->
  verify env req = JSON_parse env (body req) /\
  (forall signature,
      webhook env (mkRequest (body req) signature) w = webhook env req w) /\
  (forall e,
      JSON_parse env (body req) = Throw e ->
      exists w',
        webhook env req w =
          (Normal (mkResponse 400 (Text ("Webhook error: " ++ message e))), w') /\
        trace w' = trace w /\
        logs w' = push (entry_of env ("Webhook error: " ++ message e) error w) (logs w)).
Proof.
  intros Hs.
  assert (forall r, verify env r = JSON_parse env (body r)) as Hv
    by (intros r; unfold verify; now rewrite Hs).
  split; [apply Hv|]. split.
  - intros signature. unfold webhook. now rewrite !Hv.
  - intros e Hp.
    rewrite (webhook_rejected env req e w) by (now rewrite Hv).
    eexists. split; [reflexivity|]. split; reflexivity.
Qed.

Lemma unauthenticated_fallback_witness :
  exists w',
    webhook env_up (mkRequest "" (Some "t=1,v1=00")) initial =
      (Normal (mkResponse 400 (Text "Webhook error: Unexpected end of JSON input")), w') /\
    trace w' = [] /\
    logs w' =
      push (entry_of env_up "Webhook error: Unexpected end of JSON input" error initial) [].
Proof.
  apply (proj2 (proj2 (unauthenticated_fallback env_up
                         (mkRequest "" (Some "t=1,v1=00")) initial eq_refl))
           (mkError "SyntaxError" "Unexpected end of JSON input")).
  reflexivity.
Defined.

(** C10. In the [/test] handler an error of the email send is not contained:
    the run stops there, the datastore is never called, the error is logged,
    and the answer is 500 [{success: false, error}] with the error's
    message. *)
Theorem test_email_failure_not_contained (env : Env) (w : World) (e : JsError) :
  sendMail env (testMail env) = Throw e ->
  exists w',
    test env w =
      (Normal (mkResponse 500
                 (Json (JObj [("success", JBool false); ("error", JStr (message e))]))),
       w') /\
    trace w' = (trace w ++ [SendMail (testMail env)])%list /\
    (forall table fields, ~ In (CreateRecord table fields) [SendMail (testMail env)]) /\
    has_entry error ("Manual test failed: " ++ message e) w'.
Proof.
  intros Hm. unfold test, transporter_sendMail.
  unfold bind, lift, ret, tryCatch. cbv beta iota.
  rewrite !log_returns. cbv beta iota. rewrite emit_returns, Hm. cbv beta iota.
  rewrite !log_returns. cbv beta iota.
  eexists. split; [reflexivity|]. split; [reflexivity|]. split.
  - intros table fields [H|[]]. discriminate H.
  - set (w1 := emitted (SendMail (testMail env))
                 (logged env "Manual test run initiated" info w)).
    exists (entry_of env ("Manual test failed: " ++ message e) error w1).
    split; [|split; reflexivity].
    rewrite logs_logged.
    destruct (push_last
                (entry_of env ("Manual test failed: " ++ message e) error w1) (logs w1))
      as [front ->].
    apply in_or_app. right. now left.
Qed.

Lemma test_email_failure_not_contained_witness :
  exists w',
    test env_mail_down initial =
      (Normal (mkResponse 500
                 (Json (JObj [("success", JBool false);
                              ("error", JStr (message
                                 (mkError "Error"
                                    "Invalid login: 535-5.7.8 Username and Password not accepted")))]))),
       w') /\
    trace w' = ([] ++ [SendMail (testMail env_mail_down)])%list /\
    (forall table fields,
        ~ In (CreateRecord table fields) [SendMail (testMail env_mail_down)]) /\
    has_entry error
      ("Manual test failed: " ++
       message (mkError "Error"
                  "Invalid login: 535-5.7.8 Username and Password not accepted")) w'.
Proof.
  apply (test_email_failure_not_contained env_mail_down initial
           (mkError "Error" "Invalid login: 535-5.7.8 Username and Password not accepted")).
  reflexivity.
Defined.

(** C5, as the code has it.  Normalization never fails on a payment object
    whose currency is a string and whose amount converts to a number: the
    record's fields are composed, the currency upper-cased, and each of the
    five optional fields and the source type is the payload's value or, when
    that is missing (or otherwise falsy), the string "N/A"; none of them is
    null or undefined, and a missing one renders as "N/A" in the email. *)
Theorem normalizer_total_on_payments (env : Env) (props : list (string * JsVal))
    (c : string) (a : float) (w : World) :
  assoc "currency" props = Some (JStr c) ->
  majorUnits env (JObj props) = Normal a ->
  exists fields w',
    recordFields env (JObj props) w = (Normal fields, w') /\
    assoc "Amount" fields = Some (JNum a) /\
    assoc "Currency" fields = Some (JStr (toUpperCase c)) /\
    (forall key field,
        In (key, field) optional_fields ->
        exists v,
          assoc field fields = Some v /\
          v = or_else (own key props) (JStr "N/A") /\
          v <> JUndefined /\ v <> JNull /\
          (assoc key props = None ->
           v = JStr "N/A" /\ orNA_text env (JObj props) key = Normal "N/A")) /\
    (exists v, assoc "Source" fields = Some v /\ v <> JUndefined /\ v <> JNull).
Proof.
  intros Hc Ha.
  assert (currencyCode (JObj props) = Normal (toUpperCase c)) as Hcur.
  { unfold currencyCode. rewrite get_object. unfold own. now rewrite Hc. }
  assert (exists s, sourceType (JObj props) = Normal s /\ truthy s = true)
    as (src & Hsrc & Tsrc).
  { unfold sourceType. rewrite get_object. cbn [cbind].
    destruct (getOpt_total (own "source" props) "type") as [t ->]. cbn [cbind].
    eexists. split; [reflexivity|]. now apply or_else_truthy. }
  unfold recordFields, newDate, bind, lift, ret. cbv beta iota.
  rewrite get_object, Ha, Hcur, !orNA_object, Hsrc. cbv beta iota.
  eexists. eexists. split; [reflexivity|].
  split; [reflexivity|]. split; [reflexivity|]. split.
  - intros key field Hin.
    assert (forall k, or_else (own k props) (JStr "N/A") <> JUndefined /\
                      or_else (own k props) (JStr "N/A") <> JNull) as Hdef
      by (intros k; apply truthy_defined; now apply or_else_truthy).
    assert (forall k, assoc k props = None ->
                      or_else (own k props) (JStr "N/A") = JStr "N/A" /\
                      orNA_text env (JObj props) k = Normal "N/A") as Hna.
    { intros k Hk. unfold orNA_text. rewrite orNA_object. unfold own. rewrite Hk.
      split; reflexivity. }
    cbn in Hin.
    destruct Hin as [H|[H|[H|[H|[H|[]]]]]]; inversion H; subst key field;
      eexists; (split; [reflexivity|]); (split; [reflexivity|]);
      (split; [apply Hdef|]); (split; [apply Hdef|]); apply Hna.
  - exists src. split; [reflexivity|]. now apply truthy_defined.
Qed.

Lemma normalizer_total_on_payments_witness :
  exists fields w',
    recordFields env_up sample_payment initial = (Normal fields, w') /\
    assoc "Amount" fields = Some (JNum (PrimFloat.div 4999 100)) /\
    assoc "Currency" fields = Some (JStr (toUpperCase "usd")) /\
    (forall key field,
        In (key, field) optional_fields ->
        exists v,
          assoc field fields = Some v /\
          v = or_else
                (own key [("id", JStr "ch_1"); ("amount", JNum 4999); ("currency", JStr "usd")])
                (JStr "N/A") /\
          v <> JUndefined /\ v <> JNull /\
          (assoc key [("id", JStr "ch_1"); ("amount", JNum 4999); ("currency", JStr "usd")]
             = None ->
           v = JStr "N/A" /\ orNA_text env_up sample_payment key = Normal "N/A")) /\
    (exists v, assoc "Source" fields = Some v /\ v <> JUndefined /\ v <> JNull).
Proof.
  apply (normalizer_total_on_payments env_up
           [("id", JStr "ch_1"); ("amount", JNum 4999); ("currency", JStr "usd")]
           "usd" (PrimFloat.div 4999 100) initial); reflexivity.
Defined.

(** C5 as it was stated fails: a payment object without a currency makes both
    the record's fields and the email's text throw, and a payment object
    without an id gets a record whose Payment ID is undefined. *)
Lemma normalizer_fails_without_currency :
  let no_currency := JObj [("id", JStr "ch_1"); ("amount", JNum 4999)] in
  let no_id := JObj [("amount", JNum 4999); ("currency", JStr "usd")] in
  fst (recordFields env_up no_currency initial) =
    Throw (TypeError "Cannot read properties of undefined (reading 'toUpperCase')") /\
  emailContent env_up "8/29/2025, 10:02:02 PM" no_currency =
    Throw (TypeError "Cannot read properties of undefined (reading 'toUpperCase')") /\
  exists fields,
    fst (recordFields env_up no_id initial) = Normal fields /\
    assoc "Payment ID" fields = Some JUndefined.
Proof.
  split; [reflexivity|]. split; [reflexivity|].
  eexists. split; reflexivity.
Qed.

(** C6, as the code has it.  For every payment payload whose record is
    composed, the amount is divided by 100 in both outputs: the email shows
    the quotient with two decimals, and the record's numeric Amount field is
    the same quotient, unformatted. *)
Theorem record_amount_major_units (env : Env) (paymentData : JsVal) (w : World)
    (fields : Fields) (w' : World) :
  recordFields env paymentData w = (Normal fields, w') ->
  exists amount a,
    get paymentData "amount" = Normal amount /\
    ToNumber env amount = Normal a /\
    assoc "Amount" fields = Some (JNum (PrimFloat.div a 100)) /\
    displayAmount env paymentData =
      Normal (toFixed2 (NumberToString env) (PrimFloat.div a 100)) /\
    (forall time options,
        mailOptions env time paymentData = Normal options ->
        subject options =
          "🚨 Payment Failed: $" ++ toFixed2 (NumberToString env) (PrimFloat.div a 100)).
Proof.
  intros H.
  assert (exists amount a,
             get paymentData "amount" = Normal amount /\
             ToNumber env amount = Normal a /\
             majorUnits env paymentData = Normal (PrimFloat.div a 100)) as (amount & a & Hg & Hn & Hm).
  { destruct (recordFields_amount env _ _ _ _ H) as (x & Hx & _).
    unfold majorUnits in *.
    destruct (get paymentData "amount") as [amount|]; [|discriminate Hx]. cbn [cbind] in *.
    destruct (ToNumber env amount) as [a|] eqn:Hn; [|discriminate Hx]. cbn [cbind] in *.
    exists amount, a. rewrite Hn. auto. }
  assert (displayAmount env paymentData =
          Normal (toFixed2 (NumberToString env) (PrimFloat.div a 100))) as Hd
    by (unfold displayAmount; now rewrite Hm).
  exists amount, a. split; [exact Hg|]. split; [exact Hn|]. split; [|split; [exact Hd|]].
  - revert H. unfold recordFields, newDate, bind, lift, ret. cbv beta iota.
    rewrite Hm.
    destruct (get paymentData "id"); [|discriminate].
    destruct (currencyCode paymentData); [|discriminate].
    destruct (orNA paymentData "customer_email"); [|discriminate].
    destruct (orNA paymentData "customer"); [|discriminate].
    destruct (orNA paymentData "failure_code"); [|discriminate].
    destruct (orNA paymentData "failure_message"); [|discriminate].
    destruct (orNA paymentData "description"); [|discriminate].
    destruct (sourceType paymentData); [|discriminate].
    intros H'. inversion H'. reflexivity.
  - intros time options. unfold mailOptions. rewrite Hd.
    destruct (emailContent env time paymentData); cbn [cbind]; [|discriminate].
    intros H'. inversion H'. reflexivity.
Qed.

Lemma record_amount_major_units_witness :
  exists amount a,
    get sample_payment "amount" = Normal amount /\
    ToNumber env_up amount = Normal a /\
    assoc "Amount"
      [ ("Payment ID", JStr "ch_1");
        ("Amount", JNum (PrimFloat.div 4999 100));
        ("Currency", JStr "USD");
        ("Customer Email", JStr "N/A");
        ("Customer ID", JStr "N/A");
        ("Failure Code", JStr "N/A");
        ("Failure Message", JStr "N/A");
        ("Description", JStr "N/A");
        ("Failed At", JStr "2025-08-29T22:02:02.797Z");
        ("Status", JStr "Failed");
        ("Source", JStr "N/A") ] = Some (JNum (PrimFloat.div a 100)) /\
    displayAmount env_up sample_payment =
      Normal (toFixed2 (NumberToString env_up) (PrimFloat.div a 100)) /\
    (forall time options,
        mailOptions env_up time sample_payment = Normal options ->
        subject options =
          "🚨 Payment Failed: $" ++ toFixed2 (NumberToString env_up) (PrimFloat.div a 100)).
Proof.
  apply (record_amount_major_units env_up sample_payment initial _
           (mkWorld [] [] 1 [])).
  reflexivity.
Defined.

(** C6 as it was stated fails: for the amount 4999 the record's Amount field
    is the quotient 4999 / 100, below 100, and not the minor-unit integer. *)
Lemma record_amount_not_minor_units :
  exists fields,
    get sample_payment "amount" = Normal (JNum 4999) /\
    fst (recordFields env_up sample_payment initial) = Normal fields /\
    assoc "Amount" fields = Some (JNum (PrimFloat.div 4999 100)) /\
    assoc "Amount" fields <> Some (JNum 4999).
Proof.
  eexists. split; [reflexivity|]. split; [reflexivity|]. split; [reflexivity|].
  intros H. cbn in H. discriminate H.
Qed.

(** * Further properties of the code *)

(** ** The buffer as a window on the log *)

Section Window.
Context {A : Type}.

Lemma recent_all (n : nat) (l : list A) :
  (List.length l <= n)%nat -> recent n l = l.
Proof.
  intros H. unfold recent.
  replace (List.length l - n)%nat with 0%nat by lia. reflexivity.
Qed.

Lemma recent_length (n : nat) (l : list A) :
  List.length (recent n l) = Nat.min n (List.length l).
Proof. unfold recent. rewrite length_skipn. lia. Qed.

Lemma recent_app (n : nat) (l1 l2 : list A) :
  recent n (recent n l1 ++ l2) = recent n (l1 ++ l2).
Proof.
  destruct (Nat.le_gt_cases (List.length l1) n) as [H|H].
  - now rewrite (recent_all n l1 H).
  - unfold recent at 2.
    replace (skipn (List.length l1 - n) l1 ++ l2)%list
      with (skipn (List.length l1 - n) (l1 ++ l2)).
    + unfold recent. rewrite skipn_skipn, length_skipn, !length_app.
      f_equal. lia.
    + rewrite skipn_app.
      replace (List.length l1 - n - List.length l1)%nat with 0%nat by lia.
      reflexivity.
Qed.

Lemma recent_recent (n m : nat) (l : list A) :
  (n <= m)%nat -> recent n (recent m l) = recent n l.
Proof.
  intros H. unfold recent. rewrite skipn_skipn, length_skipn. f_equal. lia.
Qed.

Lemma recent_suffix (n : nat) (l : list A) :
  exists older, l = (older ++ recent n l)%list.
Proof.
  exists (firstn (List.length l - n) l). unfold recent.
  now rewrite firstn_skipn.
Qed.
End Window.

Lemma push_recent entry buffer :
  (List.length buffer <= 100)%nat ->
  push entry buffer = recent 100 (buffer ++ [entry]).
Proof.
  intros H. unfold push, recent, MAX_LOGS. rewrite length_app. cbn [List.length].
  destruct (Nat.ltb_spec 100 (List.length buffer + 1)) as [L|L].
  - replace (List.length buffer + 1 - 100)%nat with 1%nat by lia. reflexivity.
  - replace (List.length buffer + 1 - 100)%nat with 0%nat by lia. reflexivity.
Qed.

Lemma appends_cons env message level items w :
  appends env ((message, level) :: items) w =
  appends env items (logged env message level w).
Proof. reflexivity. Qed.

Lemma entries_length env items r : List.length (entries env items r) = List.length items.
Proof.
  revert r. induction items as [|[m l] items IH]; intros r; cbn; [reflexivity|].
  now rewrite IH.
Qed.

Lemma appends_window env items w :
  (List.length (logs w) <= 100)%nat ->
  logs (appends env items w) = recent 100 (logs w ++ entries env items (reads w)).
Proof.
  revert w. induction items as [|[m l] items IH]; intros w H.
  - cbn [entries]. rewrite app_nil_r. symmetry. now apply recent_all.
  - rewrite appends_cons, IH by (rewrite logs_logged; now apply push_bounded).
    rewrite logs_logged, reads_logged.
    rewrite (push_recent _ _ H), recent_app.
    cbn [entries]. unfold entry_of. now rewrite <- app_assoc.
Qed.

Lemma console_logged env message level w :
  List.length (console (logged env message level w)) = S (List.length (console w)).
Proof.
  unfold logged, log, bind, newDate. cbn. rewrite length_app. cbn. lia.
Qed.

Lemma appends_console env items w :
  List.length (console (appends env items w)) =
    (List.length (console w) + List.length items)%nat.
Proof.
  revert w. induction items as [|[m l] items IH]; intros w.
  - cbn. lia.
  - rewrite appends_cons, IH, console_logged. cbn [List.length]. lia.
Qed.

(** X1. The buffer is a window on everything that was logged: after any run
    of appends to a buffer within the bound, it holds the last 100 entries of
    the old buffer followed by the new entries, in the order they were
    logged; the console, which is never trimmed, has one more line for each
    append. *)
Theorem buffer_is_last_hundred (env : Env) (items : list (string * Level)) (w : World) :
  (List.length (logs w) <= 100)%nat ->
  logs (appends env items w) = recent 100 (logs w ++ entries env items (reads w)) /\
  List.length (console (appends env items w)) =
    (List.length (console w) + List.length items)%nat.
Proof.
  intros H. split.
  - now apply appends_window.
  - apply appends_console.
Qed.

Lemma buffer_is_last_hundred_witness :
  logs (appends env_up many_items full_world) =
    recent 100 (logs full_world ++ entries env_up many_items (reads full_world)) /\
  List.length (console (appends env_up many_items full_world)) =
    (List.length (console full_world) + List.length many_items)%nat.
Proof.
  apply (buffer_is_last_hundred env_up many_items full_world).
  vm_compute. lia.
Defined.

(** ** The [/logs] endpoint *)

(** X2. [/logs] answers with a suffix of the buffer, its last 50 entries at
    most, and with the buffer's current length as [total].  After any run of
    appends from the empty buffer these are the last 50 entries ever logged,
    and [total] is the number of appends only up to 100, where it stays. *)
Theorem logs_endpoint_window (env : Env) :
  (forall w,
      (exists older, logs w = (older ++ fst (getLogs w))%list) /\
      List.length (fst (getLogs w)) = Nat.min 50 (List.length (logs w)) /\
      snd (getLogs w) = List.length (logs w)) /\
  (forall items,
      fst (getLogs (appends env items initial)) = recent 50 (entries env items 0) /\
      snd (getLogs (appends env items initial)) = Nat.min (List.length items) 100).
Proof.
  split.
  - intros w. change (fst (getLogs w)) with (recent 50 (logs w)).
    split; [apply recent_suffix|]. split; [apply recent_length|reflexivity].
  - intros items.
    assert (logs (appends env items initial) = recent 100 (entries env items 0)) as E
      by (apply (appends_window env items initial); cbn; lia).
    split.
    + change (fst (getLogs (appends env items initial)))
        with (recent 50 (logs (appends env items initial))).
      rewrite E. apply recent_recent. lia.
    + change (snd (getLogs (appends env items initial)))
        with (List.length (logs (appends env items initial))).
      rewrite E, recent_length, entries_length. lia.
Qed.

(** ** What every run of a handler keeps *)

(** A relation between worlds that holds across the three steps a
    computation is made of (a log line, a clock read, an allowed effect) holds
    across every handler, whatever the request and the collaborators do. *)
Section Respect.
Variable env : Env.
Variable R : World -> World -> Prop.
Variable allowed : Effect -> Prop.
Hypothesis R_refl : forall w, R w w.
Hypothesis R_trans : forall w1 w2 w3, R w1 w2 -> R w2 w3 -> R w1 w3.
Hypothesis R_log : forall message level w, R w (logged env message level w).
Hypothesis R_tick : forall w, R w (ticked env w).
Hypothesis R_emit : forall e w, allowed e -> R w (emitted e w).

Lemma respects_ret {A} (a : A) : respects R (ret a).
Proof. intros w r w' H. inversion H. apply R_refl. Qed.

Lemma respects_throw {A} (e : JsError) : respects R (@throw A e).
Proof. intros w r w' H. inversion H. apply R_refl. Qed.

Lemma respects_lift {A} (c : Completion A) : respects R (lift c).
Proof. intros w r w' H. inversion H. apply R_refl. Qed.

Lemma respects_bind {A B} (m : M A) (k : A -> M B) :
  respects R m -> (forall a, respects R (k a)) -> respects R (bind m k).
Proof.
  intros Hm Hk w r w' H. unfold bind in H.
  destruct (m w) as [[a|e] w1] eqn:E.
  - apply (R_trans w w1 w'); [exact (Hm _ _ _ E) | exact (Hk a _ _ _ H)].
  - inversion H; subst. exact (Hm _ _ _ E).
Qed.

(** The continuation of a pure step need only be followed on the value the
    step gives. *)
Lemma respects_bind_lift {A B} (c : Completion A) (k : A -> M B) :
  (forall a, c = Normal a -> respects R (k a)) -> respects R (bind (lift c) k).
Proof.
  intros Hk w r w' H. unfold bind, lift in H.
  destruct c as [a|e].
  - exact (Hk a eq_refl _ _ _ H).
  - inversion H. apply R_refl.
Qed.

Lemma respects_tryCatch {A} (m : M A) (h : JsError -> M A) :
  respects R m -> (forall e, respects R (h e)) -> respects R (tryCatch m h).
Proof.
  intros Hm Hh w r w' H. unfold tryCatch in H.
  destruct (m w) as [[a|e] w1] eqn:E.
  - inversion H; subst. exact (Hm _ _ _ E).
  - apply (R_trans w w1 w'); [exact (Hm _ _ _ E) | exact (Hh e _ _ _ H)].
Qed.

Lemma respects_log message level : respects R (log env message level).
Proof. intros w r w' H. rewrite log_returns in H. inversion H. apply R_log. Qed.

Lemma respects_newDate : respects R (newDate env).
Proof. intros w r w' H. inversion H. apply (R_tick w). Qed.

Lemma respects_emit e : allowed e -> respects R (emit e).
Proof. intros Ha w r w' H. inversion H. now apply (R_emit e w). Qed.

Ltac respect :=
  repeat match goal with
         | |- respects _ (log _ _ _) => apply respects_log
         | |- respects _ (ret _) => apply respects_ret
         | |- respects _ (throw _) => apply respects_throw
         | |- respects _ (newDate _) => apply respects_newDate
         | |- respects _ (lift _) => apply respects_lift
         | |- respects _ (tryCatch _ _) => apply respects_tryCatch; [|intros ?]
         | |- respects _ (bind _ _) => apply respects_bind; [|intros ?]
         end.

Lemma respects_listening PORT : respects R (listening env PORT).
Proof. unfold listening, initialize, ensureFailedPaymentsTable. respect. Qed.

Hypothesis allowed_addressed : forall e, addressed env e -> allowed e.

Lemma mailOptions_addressed time p options :
  mailOptions env time p = Normal options -> addressed env (SendMail options).
Proof.
  unfold mailOptions.
  destruct (emailContent env time p); cbn [cbind]; [|discriminate].
  destruct (displayAmount env p); cbn [cbind]; [|discriminate].
  intros H. inversion H. split; reflexivity.
Qed.

Lemma respects_sendFailedPaymentAlert p : respects R (sendFailedPaymentAlert env p).
Proof.
  unfold sendFailedPaymentAlert, alert_attempt, transporter_sendMail.
  apply respects_bind; [apply respects_emit, allowed_addressed; exact I | intros _].
  apply respects_tryCatch; [|intros e; respect].
  apply respects_bind; [respect | intros t].
  apply respects_bind_lift. intros options Ho.
  apply respects_bind; [|intros _; respect].
  apply respects_bind; [|intros _; respect].
  apply respects_emit, allowed_addressed. exact (mailOptions_addressed _ _ _ Ho).
Qed.

Lemma respects_updateAirtableFailedPayment p :
  respects R (updateAirtableFailedPayment env p).
Proof.
  unfold updateAirtableFailedPayment, record_attempt, base_create, recordFields.
  apply respects_bind; [apply respects_emit, allowed_addressed; exact I | intros _].
  apply respects_tryCatch; [|intros e; respect].
  apply respects_bind; [respect | intros fields].
  apply respects_bind; [|intros id; respect].
  apply respects_bind; [|intros _; respect].
  apply respects_emit, allowed_addressed. reflexivity.
Qed.

Lemma respects_processFailedPayment event : respects R (processFailedPayment env event).
Proof.
  unfold processFailedPayment.
  apply respects_tryCatch; [|intros e; respect].
  do 5 (apply respects_bind; [respect | intros ?]).
  apply respects_bind; [apply respects_sendFailedPaymentAlert | intros _].
  apply respects_bind; [apply respects_updateAirtableFailedPayment | intros _].
  respect.
Qed.

Lemma respects_dispatch event : respects R (dispatch env event).
Proof.
  unfold dispatch. apply respects_bind; [respect | intros type].
  destruct type; try solve [respect].
  repeat match goal with
         | |- context [if ?b then _ else _] => destruct b
         end; try apply respects_processFailedPayment; respect.
Qed.

Lemma respects_webhook req : respects R (webhook env req).
Proof.
  unfold webhook. apply respects_tryCatch; [|intros e; respect].
  do 4 (apply respects_bind; [respect | intros ?]).
  apply respects_bind; [apply respects_dispatch | intros _]. respect.
Qed.

Lemma respects_test : respects R (test env).
Proof.
  unfold test, transporter_sendMail, base_create, testFields.
  apply respects_tryCatch; [|intros e; respect].
  apply respects_bind; [respect | intros _].
  apply respects_bind.
  { apply respects_bind; [|intros _; respect].
    apply respects_emit, allowed_addressed. split; reflexivity. }
  intros _.
  apply respects_bind; [respect | intros fields].
  apply respects_bind; [|intros id; respect].
  apply respects_bind; [|intros _; respect].
  apply respects_emit, allowed_addressed. reflexivity.
Qed.
End Respect.

Lemma keeps_bound_steps env :
  (forall w, keeps_bound w w) /\
  (forall w1 w2 w3, keeps_bound w1 w2 -> keeps_bound w2 w3 -> keeps_bound w1 w3) /\
  (forall message level w, keeps_bound w (logged env message level w)) /\
  (forall w, keeps_bound w (ticked env w)) /\
  (forall e w, True -> keeps_bound w (emitted e w)).
Proof.
  unfold keeps_bound. repeat split; auto.
  intros message level w H. rewrite logs_logged. now apply push_bounded.
Qed.

Lemma adds_steps env :
  (forall w, adds (addressed env) w w) /\
  (forall w1 w2 w3, adds (addressed env) w1 w2 -> adds (addressed env) w2 w3 ->
                    adds (addressed env) w1 w3) /\
  (forall message level w, adds (addressed env) w (logged env message level w)) /\
  (forall w, adds (addressed env) w (ticked env w)) /\
  (forall e w, addressed env e -> adds (addressed env) w (emitted e w)).
Proof.
  unfold adds. repeat split.
  - intros w. exists []. now rewrite app_nil_r.
  - intros w1 w2 w3 (l1 & E1 & F1) (l2 & E2 & F2). exists (l1 ++ l2)%list.
    split; [now rewrite E2, E1, app_assoc | now apply Forall_app].
  - intros message level w. exists []. rewrite trace_logged. now rewrite app_nil_r.
  - intros w. exists []. cbn. now rewrite app_nil_r.
  - intros e w H. exists [e]. split; [reflexivity | now constructor].
Qed.

(** X3. Every handler keeps the log buffer within its bound: from a buffer
    of at most 100 entries, the buffer holds at most 100 entries after any
    webhook request, after a test run and after start-up, whatever the
    request holds and whatever the collaborators answer. *)
Theorem handlers_keep_buffer_bounded (env : Env) (w : World) :
  (List.length (logs w) <= 100)%nat ->
  (forall req, (List.length (logs (snd (webhook env req w))) <= 100)%nat) /\
  (List.length (logs (snd (test env w))) <= 100)%nat /\
  (forall PORT, (List.length (logs (snd (listening env PORT w))) <= 100)%nat).
Proof.
  intros H.
  destruct (keeps_bound_steps env) as (Hr & Ht & Hl & Hk & He).
  split; [|split].
  - intros req. destruct (webhook env req w) as [r w'] eqn:E.
    exact (respects_webhook env keeps_bound (fun _ => True) Hr Ht Hl Hk He
             (fun _ _ => I) req w r w' E H).
  - destruct (test env w) as [r w'] eqn:E.
    exact (respects_test env keeps_bound (fun _ => True) Hr Ht Hl Hk He
             (fun _ _ => I) w r w' E H).
  - intros PORT. destruct (listening env PORT w) as [r w'] eqn:E.
    exact (respects_listening env keeps_bound Ht Hl PORT w r w' E H).
Qed.

Lemma handlers_keep_buffer_bounded_witness :
  (forall req, (List.length (logs (snd (webhook env_store_down req full_world))) <= 100)%nat) /\
  (List.length (logs (snd (test env_store_down full_world))) <= 100)%nat /\
  (forall PORT, (List.length (logs (snd (listening env_store_down PORT full_world))) <= 100)%nat).
Proof.
  apply (handlers_keep_buffer_bounded env_store_down full_world).
  vm_compute. lia.
Defined.

(** X4. Nothing leaves the process for another destination than the
    configured ones: in every webhook request and every test run, each mail
    handed to the transport is from and to [GMAIL_USER], and each record
    handed to the datastore goes to the table "Failed Payments"; start-up
    calls no collaborator at all. *)
Theorem outgoing_calls_addressed (env : Env) (w : World) :
  (forall req, adds (addressed env) w (snd (webhook env req w))) /\
  adds (addressed env) w (snd (test env w)) /\
  (forall PORT, trace (snd (listening env PORT w)) = trace w).
Proof.
  destruct (adds_steps env) as (Hr & Ht & Hl & Hk & He).
  split; [|split].
  - intros req. destruct (webhook env req w) as [r w'] eqn:E.
    exact (respects_webhook env (adds (addressed env)) (addressed env) Hr Ht Hl Hk He
             (fun _ H => H) req w r w' E).
  - destruct (test env w) as [r w'] eqn:E.
    exact (respects_test env (adds (addressed env)) (addressed env) Hr Ht Hl Hk He
             (fun _ H => H) w r w' E).
  - intros PORT. destruct (listening env PORT w) as [r w'] eqn:E.
    apply (respects_listening env (fun w w' => trace w' = trace w)) with (r := r) (PORT := PORT).
    + intros w1 w2 w3 H1 H2. now rewrite H2.
    + intros. apply trace_logged.
    + exact E.
Qed.



(** ** The webhook handler, path by path *)

Lemma webhook_steps env req w :
  webhook env req w =
    match verify env req with
    | Throw e => rejected env e w
    | Normal event =>
        match typeText env event with
        | Throw e => rejected env e w
        | Normal text =>
            match dispatch env event
                    (logged env ("Received Stripe webhook: " ++ text) info w) with
            | (Normal _, w') => (Normal received, w')
            | (Throw e, w') => rejected env e w'
            end
        end
    end.
Proof.
  unfold webhook, typeText, rejected, tryCatch, bind, lift, ret. cbv beta iota.
  destruct (verify env req) as [event|e]; [|now rewrite log_returns].
  destruct (get event "type") as [type|e]; cbn [cbind]; [|now rewrite log_returns].
  destruct (ToString env type) as [text|e]; [|now rewrite log_returns].
  rewrite log_returns. cbv beta iota.
  destruct (dispatch env event _) as [[[]|e] w']; [reflexivity|now rewrite log_returns].
Qed.

Lemma processFailedPayment_steps env event w :
  processFailedPayment env event w =
    match payment_of env event with
    | Throw e =>
        (Throw e, logged env ("Error processing failed payment: " ++ message e) error w)
    | Normal (p, id, amount) =>
        let w1 := logged env ("Processing failed payment: " ++ id ++ ", Amount: $" ++ amount)
                    info w in
        let w2 := snd (sendFailedPaymentAlert env p w1) in
        match updateAirtableFailedPayment env p w2 with
        | (Normal _, w3) =>
            (Normal tt,
             logged env ("Successfully processed failed payment: " ++ id) info w3)
        | (Throw e, w3) =>
            (Throw e, logged env ("Error processing failed payment: " ++ message e) error w3)
        end
    end.
Proof.
  unfold payment_of.
  destruct (get event "data") as [data|e] eqn:Hd; cbn [cbind].
  2:{ unfold processFailedPayment, tryCatch, bind, lift. rewrite Hd. cbv beta iota.
      now rewrite log_returns. }
  destruct (get data "object") as [p|e] eqn:Ho; cbn [cbind].
  2:{ unfold processFailedPayment, tryCatch, bind, lift. rewrite Hd. cbv beta iota.
      rewrite Ho. cbv beta iota. now rewrite log_returns. }
  destruct (idText env p) as [id|e] eqn:Hi; cbn [cbind].
  2:{ unfold processFailedPayment, tryCatch, bind, lift. rewrite Hd. cbv beta iota.
      rewrite Ho. cbv beta iota. rewrite Hi. cbv beta iota. now rewrite log_returns. }
  destruct (displayAmount env p) as [amount|e] eqn:Ha; cbn [cbind].
  2:{ unfold processFailedPayment, tryCatch, bind, lift. rewrite Hd. cbv beta iota.
      rewrite Ho. cbv beta iota. rewrite Hi. cbv beta iota. rewrite Ha. cbv beta iota.
      now rewrite log_returns. }
  exact (processFailedPayment_reaches env event data p id amount w Hd Ho Hi Ha).
Qed.

Lemma dispatch_not_string env event type text w :
  get event "type" = Normal type ->
  (forall t, type <> JStr t) ->
  ToString env type = Normal text ->
  dispatch env event w = (Normal tt, logged env ("Unhandled event type: " ++ text) info w).
Proof.
  intros Hg Hn Ht. unfold dispatch, bind, lift. rewrite Hg. cbv beta iota.
  destruct type; try (rewrite Ht; cbv beta iota; apply log_returns).
  now destruct (Hn s).
Qed.

(** X6. The webhook handler always answers, and only in two ways: 200
    [{received: true}], or 400 with the text "Webhook error: " and the
    message of the error that stopped it; no error escapes the handler.  A
    400 is always preceded by an [error] log entry with the very text of the
    response, as the buffer's last entry. *)
Theorem webhook_answers_200_or_400 (env : Env) (req : Request) (w : World) :
  (exists w', webhook env req w = (Normal received, w')) \/
  (exists e w1 w' older,
      webhook env req w =
        (Normal (mkResponse 400 (Text ("Webhook error: " ++ message e))), w') /\
      logs w' = (older ++ [entry_of env ("Webhook error: " ++ message e) error w1])%list).
Proof.
  assert (forall e w1, exists w' older,
             rejected env e w1 =
               (Normal (mkResponse 400 (Text ("Webhook error: " ++ message e))), w') /\
             logs w' = (older ++ [entry_of env ("Webhook error: " ++ message e) error w1])%list)
    as Hrej.
  { intros e w1. eexists.
    destruct (push_last (entry_of env ("Webhook error: " ++ message e) error w1) (logs w1))
      as [older Ho].
    exists older. split; [reflexivity|]. now rewrite logs_logged. }
  rewrite webhook_steps.
  destruct (verify env req) as [event|e].
  - destruct (typeText env event) as [text|e].
    + destruct (dispatch env event _) as [[[]|e] w'].
      * left. now exists w'.
      * right. exists e, w'. apply Hrej.
    + right. exists e, w. apply Hrej.
  - right. exists e, w. apply Hrej.
Qed.

(** X7. With a webhook secret configured, the provider's verification alone
    decides: the event is what [constructEvent] returns for the raw body, the
    signature header and the secret, and [JSON.parse] is never consulted,
    also not as a fallback.  When verification throws, the answer is 400 with
    its message; nothing is dispatched, no collaborator is called, and the
    log gains the error entry only. *)
Theorem signature_mode (env : Env) (req : Request) (w : World) (secret : string) :
  configured_secret env = Some secret ->
  verify env req = constructEvent env (body req) (stripe_signature req) secret /\
  (forall parse, webhook (with_parse env parse) req w = webhook env req w) /\
  (forall e,
      constructEvent env (body req) (stripe_signature req) secret = Throw e ->
      webhook env req w = rejected env e w /\
      trace (snd (webhook env req w)) = trace w /\
      logs (snd (webhook env req w)) =
        push (entry_of env ("Webhook error: " ++ message e) error w) (logs w)).
Proof.
  intros Hs.
  assert (verify env req = constructEvent env (body req) (stripe_signature req) secret)
    as Hv by (unfold verify; now rewrite Hs).
  split; [exact Hv|]. split.
  - intros parse.
    assert (verify (with_parse env parse) req = verify env req) as Hp.
    { unfold verify.
      change (configured_secret (with_parse env parse)) with (configured_secret env).
      now rewrite Hs. }
    unfold webhook. rewrite Hp. reflexivity.
  - intros e He. rewrite webhook_steps, Hv, He. repeat split.
Qed.

Lemma signature_mode_witness :
  webhook (sample_env_with (Some "whsec_test") sample_parse (Normal tt) (Normal "rec0001"))
    (mkRequest charge_body (Some "t=1,v1=00")) initial =
  rejected (sample_env_with (Some "whsec_test") sample_parse (Normal tt) (Normal "rec0001"))
    (mkError "StripeSignatureVerificationError"
             "No signatures found matching the expected signature for payload")
    initial.
Proof.
  apply (proj2 (proj2 (signature_mode
                         (sample_env_with (Some "whsec_test") sample_parse
                            (Normal tt) (Normal "rec0001"))
                         (mkRequest charge_body (Some "t=1,v1=00")) initial
                         "whsec_test" eq_refl))).
  reflexivity.
Defined.

(** X8. An event whose [type] is not a string (it is missing, a number, ...)
    matches no [case] and is acknowledged like an unknown type: 200
    [{received: true}] and two [info] entries that carry the type as the
    template literal renders it, "undefined" for a missing one. *)
Theorem untyped_event_unhandled (env : Env) (req : Request) (event type : JsVal)
    (text : string) (w : World) :
  verify env req = Normal event ->
  get event "type" = Normal type ->
  (forall t, type <> JStr t) ->
  ToString env type = Normal text ->
  webhook env req w =
    (Normal received,
     logged env ("Unhandled event type: " ++ text) info
       (logged env ("Received Stripe webhook: " ++ text) info w)) /\
  (type = JUndefined -> text = "undefined").
Proof.
  intros Hv Hg Hn Ht. split.
  - rewrite webhook_steps, Hv. unfold typeText. rewrite Hg. cbn [cbind]. rewrite Ht.
    now rewrite (dispatch_not_string env event type text _ Hg Hn Ht).
  - intros ->. cbn in Ht. now inversion Ht.
Qed.

Lemma untyped_event_unhandled_witness :
  webhook (sample_env_with None (fun _ => Normal (JObj [("id", JStr "evt_1")]))
             (Normal tt) (Normal "rec0001"))
    (mkRequest "{}" None) initial =
    (Normal received,
     logged (sample_env_with None (fun _ => Normal (JObj [("id", JStr "evt_1")]))
               (Normal tt) (Normal "rec0001"))
       "Unhandled event type: undefined" info
       (logged (sample_env_with None (fun _ => Normal (JObj [("id", JStr "evt_1")]))
                  (Normal tt) (Normal "rec0001"))
          "Received Stripe webhook: undefined" info initial)) /\
  (JUndefined = JUndefined -> "undefined" = "undefined").
Proof.
  apply (untyped_event_unhandled
           (sample_env_with None (fun _ => Normal (JObj [("id", JStr "evt_1")]))
              (Normal tt) (Normal "rec0001"))
           (mkRequest "{}" None) (JObj [("id", JStr "evt_1")]) JUndefined "undefined" initial);
    try reflexivity.
  intros t H. discriminate H.
Defined.

(** X9. A verified body that is no object at all ([null]), or whose [type]
    cannot be rendered, is rejected before anything is dispatched: reading
    [event.type] for the first log line throws, the answer is 400, the
    "Received" entry is never logged and no collaborator is called. *)
Theorem unreadable_type_rejected (env : Env) (req : Request) (event : JsVal)
    (e : JsError) (w : World) :
  verify env req = Normal event ->
  typeText env event = Throw e ->
  webhook env req w = rejected env e w /\
  trace (snd (webhook env req w)) = trace w /\
  (event = JNull ->
   e = TypeError "Cannot read properties of null (reading 'type')").
Proof.
  intros Hv Ht. rewrite webhook_steps, Hv, Ht. repeat split.
  intros ->. cbn in Ht. now inversion Ht.
Qed.

Lemma unreadable_type_rejected_witness :
  webhook (sample_env_with None (fun _ => Normal JNull) (Normal tt) (Normal "rec0001"))
    (mkRequest "null" None) initial =
  rejected (sample_env_with None (fun _ => Normal JNull) (Normal tt) (Normal "rec0001"))
    (TypeError "Cannot read properties of null (reading 'type')") initial.
Proof.
  apply (unreadable_type_rejected
           (sample_env_with None (fun _ => Normal JNull) (Normal tt) (Normal "rec0001"))
           (mkRequest "null" None) JNull
           (TypeError "Cannot read properties of null (reading 'type')") initial);
    reflexivity.
Defined.

(** X10. When the payment object, its id or its amount cannot be read from a
    recognized event, the failure-processing routine stops before the sinks:
    it logs the error and throws it again, the webhook answers 400 with the
    same message, two [error] entries follow the "Received" entry, and no
    sink is entered and no collaborator called. *)
Theorem unreadable_payment_no_sink (env : Env) (req : Request) (event : JsVal)
    (t : string) (e : JsError) (w : World) :
  verify env req = Normal event ->
  get event "type" = Normal (JStr t) ->
  recognized t = true ->
  payment_of env event = Throw e ->
  (forall w0,
      processFailedPayment env event w0 =
        (Throw e, logged env ("Error processing failed payment: " ++ message e) error w0)) /\
  webhook env req w =
    rejected env e
      (logged env ("Error processing failed payment: " ++ message e) error
         (logged env ("Received Stripe webhook: " ++ t) info w)) /\
  trace (snd (webhook env req w)) = trace w.
Proof.
  intros Hv Hg Hr Hp.
  assert (forall w0,
             processFailedPayment env event w0 =
               (Throw e, logged env ("Error processing failed payment: " ++ message e)
                           error w0)) as Hproc
    by (intros w0; now rewrite processFailedPayment_steps, Hp).
  split; [exact Hproc|].
  rewrite (webhook_recognized env req event t w Hv Hg Hr), Hproc.
  split; reflexivity.
Qed.

Lemma unreadable_payment_no_sink_witness :
  webhook env_up (mkRequest bare_body None) initial =
    rejected env_up (TypeError "Cannot read properties of undefined (reading 'object')")
      (logged env_up
         "Error processing failed payment: Cannot read properties of undefined (reading 'object')"
         error
         (logged env_up "Received Stripe webhook: charge.failed" info initial)) /\
  trace (snd (webhook env_up (mkRequest bare_body None) initial)) = [].
Proof.
  apply (unreadable_payment_no_sink env_up (mkRequest bare_body None)
           (JObj [("type", JStr "charge.failed")]) "charge.failed"
           (TypeError "Cannot read properties of undefined (reading 'object')") initial);
    reflexivity.
Defined.

(** X11. A failure of the record sink is logged three times with the same
    message, innermost first: by the sink ("Error creating Airtable record"),
    by the failure-processing routine ("Error processing failed payment") and
    by the webhook handler ("Webhook error"), all at level [error]. *)
Theorem record_failure_logged_three_times (env : Env) (req : Request)
    (event data paymentData : JsVal) (t id amount : string) (e : JsError) (w : World) :
  verify env req = Normal event ->
  get event "type" = Normal (JStr t) ->
  recognized t = true ->
  get event "data" = Normal data ->
  get data "object" = Normal paymentData ->
  idText env paymentData = Normal id ->
  displayAmount env paymentData = Normal amount ->
  record_fails env paymentData e ->
  exists w3,
    snd (webhook env req w) =
      appends env
        [ ("Error creating Airtable record: " ++ message e, error);
          ("Error processing failed payment: " ++ message e, error);
          ("Webhook error: " ++ message e, error) ] w3.
Proof.
  intros Hv Ht Hr Hd Ho Hi Ha Hfail.
  rewrite (webhook_recognized env req event t w Hv Ht Hr).
  rewrite (processFailedPayment_reaches env event data paymentData id amount _ Hd Ho Hi Ha).
  cbv zeta.
  set (w1 := logged env _ info (logged env _ info w)).
  set (w2 := snd (sendFailedPaymentAlert env paymentData w1)).
  destruct (Hfail (emitted (Invoke RecordSink paymentData) w2)) as (w3 & A).
  destruct (updateAirtable_cases env paymentData w2)
    as [(fields & w0 & rid & F & C & U) | (e' & wx & A' & U & _)].
  - unfold record_attempt in A. unfold bind at 1 in A. rewrite F in A.
    unfold base_create, bind, lift in A. rewrite emit_returns, C in A.
    discriminate A.
  - rewrite A in A'. inversion A'; subst e' wx. rewrite U.
    exists w3. reflexivity.
Qed.

Lemma record_failure_logged_three_times_witness :
  exists w3,
    snd (webhook env_store_down (mkRequest charge_body None) initial) =
      appends env_store_down
        [ ("Error creating Airtable record: " ++ message
             (mkError "AirtableError" "You are not authorized to perform this operation"),
           error);
          ("Error processing failed payment: " ++ message
             (mkError "AirtableError" "You are not authorized to perform this operation"),
           error);
          ("Webhook error: " ++ message
             (mkError "AirtableError" "You are not authorized to perform this operation"),
           error) ] w3.
Proof.
  apply (record_failure_logged_three_times env_store_down
           (mkRequest charge_body None)
           (sample_event "charge.failed") (JObj [("object", sample_payment)]) sample_payment
           "charge.failed" "ch_1" "49.99"
           (mkError "AirtableError" "You are not authorized to perform this operation"));
    try reflexivity.
  intros w. eexists. reflexivity.
Defined.

(** ** What each sink hands to the collaborators *)

Lemma mails_app tr1 tr2 : mails (tr1 ++ tr2) = (mails tr1 ++ mails tr2)%list.
Proof. apply flat_map_app. Qed.

Lemma records_app tr1 tr2 : records (tr1 ++ tr2) = (records tr1 ++ records tr2)%list.
Proof. apply flat_map_app. Qed.

Lemma trace_ticked env w : trace (ticked env w) = trace w.
Proof. reflexivity. Qed.

Ltac traces :=
  repeat first
    [ rewrite trace_logged | rewrite trace_emitted | rewrite trace_ticked
    | rewrite mails_app | rewrite records_app ];
  cbn [mails records flat_map app];
  rewrite ?app_nil_r.

Lemma alert_effects env p w :
  exists w',
    sendFailedPaymentAlert env p w = (Normal tt, w') /\
    records (trace w') = records (trace w) /\
    match mailOptions env (toLocaleString env (clock env (reads w))) p with
    | Normal options => mails (trace w') = (mails (trace w) ++ [options])%list
    | Throw _ => mails (trace w') = mails (trace w)
    end.
Proof.
  unfold sendFailedPaymentAlert, alert_attempt, transporter_sendMail.
  unfold tryCatch, bind, lift. cbv beta iota. rewrite emit_returns. cbv beta iota.
  change (newDate env (emitted (Invoke EmailSink p) w))
    with (Normal (clock env (reads w)), ticked env (emitted (Invoke EmailSink p) w)).
  cbv beta iota.
  destruct (mailOptions env (toLocaleString env (clock env (reads w))) p) as [options|e].
  - rewrite emit_returns. cbv beta iota.
    destruct (sendMail env options) as [[]|e].
    + destruct (idText env p) as [id|e]; rewrite log_returns;
        (eexists; split; [reflexivity|]; split; traces; reflexivity).
    + rewrite log_returns. eexists. split; [reflexivity|]. split; traces; reflexivity.
  - rewrite log_returns. eexists. split; [reflexivity|]. split; traces; reflexivity.
Qed.

Lemma record_effects env p w :
  exists r w',
    updateAirtableFailedPayment env p w = (r, w') /\
    mails (trace w') = mails (trace w) /\
    match recordFields env p (emitted (Invoke RecordSink p) w) with
    | (Normal fields, _) =>
        records (trace w') = (records (trace w) ++ [("Failed Payments", fields)])%list /\
        r = createRecord env "Failed Payments" fields
    | (Throw e, _) => records (trace w') = records (trace w) /\ r = Throw e
    end.
Proof.
  unfold updateAirtableFailedPayment, record_attempt, base_create.
  unfold tryCatch, bind, lift, ret, throw. cbv beta iota.
  rewrite emit_returns. cbv beta iota.
  destruct (recordFields env p (emitted (Invoke RecordSink p) w)) as [[fields|e] w0] eqn:F;
    destruct (recordFields_world env _ _ _ _ F) as [_ Ht].
  - rewrite emit_returns. cbv beta iota.
    destruct (createRecord env "Failed Payments" fields) as [id|e];
      rewrite log_returns; cbv beta iota;
      (eexists; eexists; split; [reflexivity|]); traces; rewrite Ht; traces; auto.
  - rewrite log_returns. cbv beta iota.
    eexists. eexists. split; [reflexivity|]. traces. rewrite Ht. traces. auto.
Qed.

Lemma mailOptions_throw_attempt env p w e :
  mailOptions env (toLocaleString env (clock env (reads w))) p = Throw e ->
  alert_attempt env p w = (Throw e, ticked env w).
Proof.
  intros H. unfold alert_attempt, bind, lift.
  change (newDate env w) with (Normal (clock env (reads w)), ticked env w).
  cbv beta iota. now rewrite H.
Qed.

Lemma recordFields_status env p w fields w0 :
  recordFields env p w = (Normal fields, w0) ->
  assoc "Status" fields = Some (JStr "Failed") /\
  exists id, get p "id" = Normal id /\ assoc "Payment ID" fields = Some id.
Proof.
  unfold recordFields, newDate, bind, lift, ret. cbv beta iota.
  destruct (get p "id") as [id|]; [|discriminate].
  destruct (majorUnits env p); [|discriminate].
  destruct (currencyCode p); [|discriminate].
  destruct (orNA p "customer_email"); [|discriminate].
  destruct (orNA p "customer"); [|discriminate].
  destruct (orNA p "failure_code"); [|discriminate].
  destruct (orNA p "failure_message"); [|discriminate].
  destruct (orNA p "description"); [|discriminate].
  destruct (sourceType p); [|discriminate].
  intros H. inversion H. split; [reflexivity|]. exists id. split; reflexivity.
Qed.

(** X12. The email sink hands at most one mail to the transport, and never a
    record to the datastore.  When the alert is composed, that one mail is
    sent (whether the transport then accepts it or not); when it cannot be
    composed (no string currency, an amount or field that does not render),
    the transport is not called at all and the failure is logged at level
    [error]. *)
Theorem email_sink_one_mail (env : Env) (paymentData : JsVal) (w : World) :
  let time := toLocaleString env (clock env (reads w)) in
  let w' := snd (sendFailedPaymentAlert env paymentData w) in
  records (trace w') = records (trace w) /\
  (forall options,
      mailOptions env time paymentData = Normal options ->
      mails (trace w') = (mails (trace w) ++ [options])%list) /\
  (forall e,
      mailOptions env time paymentData = Throw e ->
      mails (trace w') = mails (trace w) /\
      has_entry error ("Error sending Gmail alert: " ++ message e) w').
Proof.
  intros time w'.
  destruct (alert_effects env paymentData w) as (w1 & R & Hrec & Hmail).
  assert (w' = w1) as -> by (unfold w'; now rewrite R).
  split; [exact Hrec|]. split.
  - intros options Ho. fold time in Hmail. now rewrite Ho in Hmail.
  - intros e He. fold time in Hmail. rewrite He in Hmail. split; [exact Hmail|].
    destruct (sendFailedPaymentAlert_cases env paymentData w)
      as (w2 & entry & R' & Hl & _ & Hc).
    rewrite R in R'. inversion R'; subst w2.
    destruct (Hc e (ticked env (emitted (Invoke EmailSink paymentData) w))) as (_ & Hlvl & Hmsg).
    { apply mailOptions_throw_attempt. exact He. }
    exists entry. split; [|auto]. rewrite Hl.
    destruct (push_last entry (logs w)) as [front ->].
    apply in_or_app. right. now left.
Qed.

Lemma email_sink_one_mail_witness :
  mails (trace (snd (sendFailedPaymentAlert env_up
                       (JObj [("id", JStr "ch_1"); ("amount", JNum 4999)]) initial))) = [] /\
  has_entry error
    ("Error sending Gmail alert: " ++
     message (TypeError "Cannot read properties of undefined (reading 'toUpperCase')"))
    (snd (sendFailedPaymentAlert env_up
            (JObj [("id", JStr "ch_1"); ("amount", JNum 4999)]) initial)).
Proof.
  apply (proj2 (proj2 (email_sink_one_mail env_up
                         (JObj [("id", JStr "ch_1"); ("amount", JNum 4999)]) initial))
           (TypeError "Cannot read properties of undefined (reading 'toUpperCase')")).
  reflexivity.
Defined.

(** X13. The record sink hands at most one record to the datastore, and
    never a mail to the transport.  When the fields are composed, that one
    record goes to the table "Failed Payments" with the status "Failed" and
    the payload's id as it is, and the sink completes as the datastore call
    does; when they cannot be composed, the datastore is not called and the
    sink throws. *)
Theorem record_sink_one_record (env : Env) (paymentData : JsVal) (w : World) :
  let run := updateAirtableFailedPayment env paymentData w in
  mails (trace (snd run)) = mails (trace w) /\
  (forall fields w0,
      recordFields env paymentData (emitted (Invoke RecordSink paymentData) w)
        = (Normal fields, w0) ->
      records (trace (snd run)) = (records (trace w) ++ [("Failed Payments", fields)])%list /\
      fst run = createRecord env "Failed Payments" fields /\
      assoc "Status" fields = Some (JStr "Failed") /\
      exists id, get paymentData "id" = Normal id /\ assoc "Payment ID" fields = Some id) /\
  (forall e w0,
      recordFields env paymentData (emitted (Invoke RecordSink paymentData) w)
        = (Throw e, w0) ->
      records (trace (snd run)) = records (trace w) /\ fst run = Throw e).
Proof.
  intros run.
  destruct (record_effects env paymentData w) as (r & w1 & R & Hmail & Hrec).
  assert (run = (r, w1)) as -> by exact R. cbn [fst snd].
  split; [exact Hmail|]. split.
  - intros fields w0 F. rewrite F in Hrec. destruct Hrec as [Hr ->].
    split; [exact Hr|]. split; [reflexivity|].
    exact (recordFields_status env _ _ _ _ F).
  - intros e w0 F. now rewrite F in Hrec.
Qed.

Lemma record_sink_one_record_witness :
  records (trace (snd (updateAirtableFailedPayment env_store_down
                         (JObj [("id", JStr "ch_1"); ("amount", JNum 4999)]) initial))) = [] /\
  fst (updateAirtableFailedPayment env_store_down
         (JObj [("id", JStr "ch_1"); ("amount", JNum 4999)]) initial) =
    Throw (TypeError "Cannot read properties of undefined (reading 'toUpperCase')").
Proof.
  apply (proj2 (proj2 (record_sink_one_record env_store_down
                         (JObj [("id", JStr "ch_1"); ("amount", JNum 4999)]) initial))
           (TypeError "Cannot read properties of undefined (reading 'toUpperCase')")
           (mkWorld [] [] 0 [Invoke RecordSink (JObj [("id", JStr "ch_1"); ("amount", JNum 4999)])])).
  reflexivity.
Defined.

(** ** One request, one attempt; two deliveries, two attempts *)

Lemma attempts_none n w w' : trace w' = trace w -> attempts n w w'.
Proof.
  intros H. exists [], []. rewrite H, !app_nil_r. cbn. repeat split; lia.
Qed.

Lemma processFailedPayment_attempts env event w :
  attempts 1 w (snd (processFailedPayment env event w)).
Proof.
  rewrite processFailedPayment_steps.
  destruct (payment_of env event) as [[[p id] amount]|e]; [|now apply attempts_none].
  cbv zeta.
  set (w1 := logged env _ info w).
  destruct (alert_effects env p w1) as (w2 & R & Hrec & Hmail). rewrite R. cbn [snd].
  destruct (record_effects env p w2) as (r & w3 & U & Hmail' & Hrec'). rewrite U.
  assert (exists ms, mails (trace w2) = (mails (trace w) ++ ms)%list /\
                     (List.length ms <= 1)%nat) as (ms & Hms & Lms).
  { destruct (mailOptions env _ p).
    - eexists. split; [exact Hmail|cbn; lia].
    - exists []. rewrite app_nil_r. split; [exact Hmail|cbn; lia]. }
  assert (exists rs, records (trace w3) = (records (trace w) ++ rs)%list /\
                     (List.length rs <= 1)%nat) as (rs & Hrs & Lrs).
  { destruct (recordFields env p _) as [[fields|e] w0].
    - destruct Hrec' as [Hr _]. eexists. rewrite Hr, Hrec. split; [reflexivity|cbn; lia].
    - destruct Hrec' as [Hr _]. exists []. rewrite Hr, Hrec, app_nil_r.
      split; [reflexivity|cbn; lia]. }
  assert (attempts 1 w w3) as H3.
  { exists ms, rs. rewrite Hmail', Hms, Hrs. auto. }
  destruct H3 as (ms' & rs' & ? & ? & ? & ?).
  destruct r; cbn [snd]; exists ms', rs'; rewrite trace_logged; auto.
Qed.

Lemma dispatch_cases env event w :
  dispatch env event w = processFailedPayment env event w \/
  trace (snd (dispatch env event w)) = trace w.
Proof.
  unfold dispatch, bind, lift.
  destruct (get event "type") as [type|e]; [|now right].
  destruct type;
    try (right; destruct (ToString env _); [now rewrite log_returns | reflexivity]).
  repeat match goal with
         | |- context [if ?b then _ else _] => destruct b; [now left|]
         end.
  right. now rewrite log_returns.
Qed.

(** X14. One webhook request makes at most one mail and at most one record:
    whatever the request holds and whatever the collaborators answer, the
    handler calls the transport at most once and the datastore at most once,
    and retries neither. *)
Theorem one_attempt_per_request (env : Env) (req : Request) (w : World) :
  exists ms rs,
    mails (trace (snd (webhook env req w))) = (mails (trace w) ++ ms)%list /\
    records (trace (snd (webhook env req w))) = (records (trace w) ++ rs)%list /\
    (List.length ms <= 1)%nat /\ (List.length rs <= 1)%nat.
Proof.
  change (attempts 1 w (snd (webhook env req w))).
  rewrite webhook_steps.
  destruct (verify env req) as [event|e]; [|now apply attempts_none].
  destruct (typeText env event) as [text|e]; [|now apply attempts_none].
  set (w1 := logged env _ info w).
  assert (attempts 1 w (snd (dispatch env event w1))) as (ms & rs & Hm & Hr & Lm & Lr).
  { destruct (dispatch_cases env event w1) as [-> | H].
    - destruct (processFailedPayment_attempts env event w1) as (ms & rs & Hm & Hr & L).
      exists ms, rs. now rewrite Hm, Hr.
    - apply attempts_none. now rewrite H. }
  destruct (dispatch env event w1) as [[[]|e] w2]; cbn [snd] in *;
    exists ms, rs; unfold rejected; cbn [snd]; rewrite ?trace_logged; auto.
Qed.

Lemma webhook_invocations env req event t data p id amount w :
  verify env req = Normal event ->
  get event "type" = Normal (JStr t) ->
  recognized t = true ->
  get event "data" = Normal data ->
  get data "object" = Normal p ->
  idText env p = Normal id ->
  displayAmount env p = Normal amount ->
  invocations (trace (snd (webhook env req w))) =
    (invocations (trace w) ++ [(EmailSink, p); (RecordSink, p)])%list.
Proof.
  intros Hv Ht Hr Hd Ho Hi Ha.
  rewrite (webhook_recognized env req event t w Hv Ht Hr).
  pose proof (processFailedPayment_invocations env event data p id amount
                (logged env ("Received Stripe webhook: " ++ t) info w) Hd Ho Hi Ha) as H.
  rewrite trace_logged in H.
  destruct (processFailedPayment env event _) as [[[]|e] w']; cbn [snd] in *;
    rewrite ?trace_logged; exact H.
Qed.

(** X15. Nothing remembers an event that was already processed: when the
    same recognized event is delivered twice, both sinks are entered again,
    in the same order, and where the datastore accepts the record each
    delivery is answered 200 and creates a record of its own, so the table
    gets two. *)
Theorem redelivery_duplicates (env : Env) (req : Request)
    (event data paymentData : JsVal) (t id : string) (w : World) :
  verify env req = Normal event ->
  get event "type" = Normal (JStr t) ->
  recognized t = true ->
  get event "data" = Normal data ->
  get data "object" = Normal paymentData ->
  idText env paymentData = Normal id ->
  record_succeeds env paymentData ->
  let first := webhook env req w in
  let second := webhook env req (snd first) in
  fst first = Normal received /\
  fst second = Normal received /\
  invocations (trace (snd second)) =
    (invocations (trace w) ++
     [ (EmailSink, paymentData); (RecordSink, paymentData);
       (EmailSink, paymentData); (RecordSink, paymentData) ])%list /\
  List.length (records (trace (snd second))) = (List.length (records (trace w)) + 2)%nat.
Proof.
  intros Hv Ht Hr Hd Ho Hi Hrec.
  destruct (record_succeeds_amount env paymentData Hrec) as (amount & Ha).
  assert (forall w0,
             fst (webhook env req w0) = Normal received /\
             List.length (records (trace (snd (webhook env req w0)))) =
               S (List.length (records (trace w0)))) as Hone.
  { intros w0.
    rewrite (webhook_recognized env req event t w0 Hv Ht Hr).
    rewrite (processFailedPayment_reaches env event data paymentData id amount _ Hd Ho Hi Ha).
    cbv zeta.
    set (w1 := logged env _ info (logged env _ info w0)).
    destruct (alert_effects env paymentData w1) as (w2 & R & Hr1 & _). rewrite R. cbn [snd].
    destruct (record_effects env paymentData w2) as (r & w3 & U & _ & Hr2).
    destruct (Hrec w2) as (rid & w3' & U'). rewrite U in U'. inversion U'; subst r w3'.
    rewrite U. cbn [fst snd]. split; [reflexivity|].
    destruct (recordFields env paymentData _) as [[fields|e] w4].
    - destruct Hr2 as [Hr2 _]. rewrite trace_logged, Hr2, Hr1. unfold w1.
      rewrite !trace_logged, length_app. cbn. lia.
    - destruct Hr2 as [_ Hr2]. discriminate Hr2. }
  intros first second.
  destruct (Hone w) as [F1 L1]. destruct (Hone (snd first)) as [F2 L2].
  split; [exact F1|]. split; [exact F2|]. split.
  - unfold second.
    rewrite (webhook_invocations env req event t data paymentData id amount _
               Hv Ht Hr Hd Ho Hi Ha).
    unfold first.
    rewrite (webhook_invocations env req event t data paymentData id amount _
               Hv Ht Hr Hd Ho Hi Ha).
    now rewrite <- app_assoc.
  - unfold second. rewrite L2. unfold first. rewrite L1. lia.
Qed.

Lemma redelivery_duplicates_witness :
  let first := webhook env_up (mkRequest charge_body None) initial in
  let second := webhook env_up (mkRequest charge_body None) (snd first) in
  fst first = Normal received /\
  fst second = Normal received /\
  invocations (trace (snd second)) =
    ([] ++
     [ (EmailSink, sample_payment); (RecordSink, sample_payment);
       (EmailSink, sample_payment); (RecordSink, sample_payment) ])%list /\
  List.length (records (trace (snd second))) = (0 + 2)%nat.
Proof.
  apply (redelivery_duplicates env_up (mkRequest charge_body None)
           (sample_event "charge.failed") (JObj [("object", sample_payment)]) sample_payment
           "charge.failed" "ch_1" initial); try reflexivity.
  intros w. eexists. eexists. reflexivity.
Defined.

(** ** The test handler *)

Lemma test_steps env w :
  test env w =
    let w2 := emitted (SendMail (testMail env))
                (logged env "Manual test run initiated" info w) in
    match sendMail env (testMail env) with
    | Throw e => test_failed env e w2
    | Normal _ =>
        let fields := test_record env (reads w2) in
        let w3 := emitted (CreateRecord "Failed Payments" fields)
                    (ticked env (ticked env w2)) in
        match createRecord env "Failed Payments" fields with
        | Throw e => test_failed env e w3
        | Normal id =>
            (Normal (test_passed id),
             logged env "Manual test completed successfully" info w3)
        end
    end.
Proof.
  unfold test, transporter_sendMail, base_create, testFields, test_failed, test_passed.
  unfold tryCatch, bind, lift, ret. cbv beta iota.
  rewrite log_returns. cbv beta iota. rewrite emit_returns. cbv beta iota.
  destruct (sendMail env (testMail env)) as [[]|e]; [|now rewrite log_returns].
  cbv zeta.
  set (w2 := emitted (SendMail (testMail env)) (logged env "Manual test run initiated" info w)).
  change (newDate env w2) with (Normal (clock env (reads w2)), ticked env w2).
  cbv beta iota.
  change (newDate env (ticked env w2))
    with (Normal (clock env (S (reads w2))), ticked env (ticked env w2)).
  cbv beta iota. rewrite emit_returns. cbv beta iota.
  change [("Payment ID", JStr ("TEST_" ++ integer_digits (clock env (reads w2))));
          ("Amount", JNum 99.99%float); ("Currency", JStr "USD");
          ("Customer Email", JStr "test@example.com"); ("Failure Code", JStr "TEST");
          ("Failure Message", JStr "This is a test record");
          ("Failed At", JStr (toISOString env (clock env (S (reads w2)))));
          ("Status", JStr "Test")]
    with (test_record env (reads w2)).
  destruct (createRecord env "Failed Payments" (test_record env (reads w2))) as [id|e];
    now rewrite !log_returns.
Qed.

(** X16. A test run always answers, 200 or 500, and no error escapes it.  It
    hands the test mail to the transport exactly once.  If the transport
    rejects it, the datastore is not called and the answer is 500 with that
    error's message.  Otherwise one record with the status "Test" goes to the
    table "Failed Payments": if the datastore rejects it the answer is 500
    with the datastore's message, although the mail is out; if it accepts,
    the answer is 200 and names the created record. *)
Theorem test_run_outcomes (env : Env) (w : World) :
  let run := test env w in
  let fields := test_record env (S (reads w)) in
  mails (trace (snd run)) = (mails (trace w) ++ [testMail env])%list /\
  assoc "Status" fields = Some (JStr "Test") /\
  match sendMail env (testMail env) with
  | Throw e =>
      records (trace (snd run)) = records (trace w) /\
      fst run = fst (test_failed env e w)
  | Normal _ =>
      records (trace (snd run)) = (records (trace w) ++ [("Failed Payments", fields)])%list /\
      match createRecord env "Failed Payments" fields with
      | Throw e =>
          fst run = fst (test_failed env e w) /\
          has_entry error ("Manual test failed: " ++ message e) (snd run)
      | Normal id => fst run = Normal (test_passed id)
      end
  end.
Proof.
  intros run fields. unfold run. rewrite test_steps. cbv zeta.
  change (reads (emitted (SendMail (testMail env))
                   (logged env "Manual test run initiated" info w)))
    with (S (reads w)).
  fold fields.
  destruct (sendMail env (testMail env)) as [[]|e].
  - destruct (createRecord env "Failed Payments" fields) as [id|e].
    + cbn [fst snd]. split; [traces; reflexivity|]. split; [reflexivity|].
      split; [traces; reflexivity | reflexivity].
    + unfold test_failed. cbn [fst snd]. split; [traces; reflexivity|].
      split; [reflexivity|]. split; [traces; reflexivity|]. split; [reflexivity|].
      match goal with
      | |- has_entry _ _ (logged ?v ?m ?l ?W) => exists (entry_of v m l W)
      end.
      split; [|split; reflexivity].
      rewrite logs_logged.
      match goal with
      | |- In ?x (push ?x ?b) => destruct (push_last x b) as [front ->]
      end.
      apply in_or_app. right. now left.
  - unfold test_failed. cbn [fst snd]. split; [traces; reflexivity|].
    split; [reflexivity|]. split; [traces; reflexivity | reflexivity].
Qed.

(** ** The two decimals of an amount *)








(** ** Edge cases of the payment object *)

(** X18. The "N/A" fallback is taken for every falsy value, not only for a
    missing one: an optional field that is present but null, false, zero or
    the empty string is stored and shown as "N/A".  A truthy value is kept
    whatever its type: a field that holds an object goes to the record as
    that object and shows in the email as "[object Object]". *)
Theorem optional_field_edge_cases (env : Env) (props : list (string * JsVal))
    (k : string) (v : JsVal) :
  assoc k props = Some v ->
  (truthy v = false ->
   orNA (JObj props) k = Normal (JStr "N/A") /\
   orNA_text env (JObj props) k = Normal "N/A") /\
  (truthy v = true -> orNA (JObj props) k = Normal v) /\
  (forall inner,
      v = JObj inner -> hasOwn "toString" inner = false ->
      orNA_text env (JObj props) k = Normal "[object Object]") /\
  truthy JNull = false /\ truthy (JBool false) = false /\
  truthy (JNum 0) = false /\ truthy (JStr "") = false.
Proof.
  intros Hk.
  assert (orNA (JObj props) k = Normal (or_else v (JStr "N/A"))) as E
    by (rewrite orNA_object; unfold own; now rewrite Hk).
  unfold orNA_text. rewrite E. unfold or_else.
  split; [|split; [|split]].
  - intros Hf. rewrite Hf. split; reflexivity.
  - intros Ht. now rewrite Ht.
  - intros inner -> Hi. cbn. now rewrite Hi.
  - repeat split; reflexivity.
Qed.

Lemma optional_field_edge_cases_witness :
  orNA (JObj [("id", JStr "ch_1"); ("customer_email", JStr "")]) "customer_email" =
    Normal (JStr "N/A") /\
  orNA_text env_up (JObj [("id", JStr "ch_1"); ("customer_email", JStr "")]) "customer_email" =
    Normal "N/A".
Proof.
  apply (proj1 (optional_field_edge_cases env_up
                  [("id", JStr "ch_1"); ("customer_email", JStr "")]
                  "customer_email" (JStr "") eq_refl)).
  reflexivity.
Defined.

(** X19. A missing amount does not stop anything: it is shown as "NaN" and
    stored as the number NaN, and a null amount is shown as "0.00"; neither
    the email nor the record fails on it. *)
Theorem amount_edge_cases (env : Env) (props : list (string * JsVal)) :
  (assoc "amount" props = None ->
   displayAmount env (JObj props) = Normal "NaN" /\
   majorUnits env (JObj props) = Normal nan) /\
  (assoc "amount" props = Some JNull ->
   displayAmount env (JObj props) = Normal "0.00" /\
   majorUnits env (JObj props) = Normal 0%float).
Proof.
  split; intros H; unfold displayAmount, majorUnits; rewrite get_object;
    unfold own; rewrite H; split; reflexivity.
Qed.

Lemma amount_edge_cases_witness :
  displayAmount env_up (JObj [("id", JStr "in_1"); ("currency", JStr "usd")]) = Normal "NaN" /\
  majorUnits env_up (JObj [("id", JStr "in_1"); ("currency", JStr "usd")]) = Normal nan.
Proof.
  apply (proj1 (amount_edge_cases env_up [("id", JStr "in_1"); ("currency", JStr "usd")])).
  reflexivity.
Defined.

Lemma emailContent_currency env time p amount e :
  displayAmount env p = Normal amount ->
  currencyCode p = Throw e ->
  mailOptions env time p = Throw e.
Proof.
  intros Ha Hc. unfold mailOptions, emailContent. rewrite Ha. cbn [cbind].
  rewrite Hc. reflexivity.
Qed.

Lemma recordFields_currency env p id amount e w :
  idText env p = Normal id ->
  displayAmount env p = Normal amount ->
  currencyCode p = Throw e ->
  recordFields env p w = (Throw e, w).
Proof.
  intros Hi Ha Hc. unfold recordFields, bind, lift.
  unfold idText in Hi. destruct (get p "id"); [|discriminate Hi]. cbv beta iota.
  unfold displayAmount in Ha. destruct (majorUnits env p); [|discriminate Ha]. cbv beta iota.
  now rewrite Hc.
Qed.

(** X20. A recognized event whose payment has no usable currency (none, or
    one that is not a string) can never be acknowledged: the alert cannot be
    composed, so no mail is sent and the email sink logs and swallows the
    error; the record's fields cannot be composed either, so the datastore is
    not called and the record sink throws; the webhook answers 400 with the
    error's message, on every delivery. *)
Theorem missing_currency_always_rejected (env : Env) (req : Request)
    (event data paymentData : JsVal) (t id amount : string) (e : JsError) (w : World) :
  verify env req = Normal event ->
  get event "type" = Normal (JStr t) ->
  recognized t = true ->
  get event "data" = Normal data ->
  get data "object" = Normal paymentData ->
  idText env paymentData = Normal id ->
  displayAmount env paymentData = Normal amount ->
  currencyCode paymentData = Throw e ->
  fst (webhook env req w) =
    Normal (mkResponse 400 (Text ("Webhook error: " ++ message e))) /\
  mails (trace (snd (webhook env req w))) = mails (trace w) /\
  records (trace (snd (webhook env req w))) = records (trace w) /\
  has_entry error ("Error sending Gmail alert: " ++ message e) (snd (webhook env req w)).
Proof.
  intros Hv Ht Hr Hd Ho Hi Ha Hc.
  rewrite (webhook_recognized env req event t w Hv Ht Hr).
  rewrite (processFailedPayment_reaches env event data paymentData id amount _ Hd Ho Hi Ha).
  cbv zeta.
  set (w1 := logged env _ info (logged env _ info w)).
  destruct (alert_effects env paymentData w1) as (w2 & R & Hrec & Hmail).
  rewrite (emailContent_currency env _ paymentData amount e Ha Hc) in Hmail.
  destruct (sendFailedPaymentAlert_cases env paymentData w1)
    as (w2' & entry & R' & Hl & _ & Hcaught).
  rewrite R in R'. inversion R'; subst w2'.
  destruct (Hcaught e (ticked env (emitted (Invoke EmailSink paymentData) w1)))
    as (_ & Hlvl & Hmsg).
  { apply mailOptions_throw_attempt.
    exact (emailContent_currency env _ paymentData amount e Ha Hc). }
  rewrite R. cbn [snd].
  destruct (record_effects env paymentData w2) as (r & w3 & U & Hmail' & Hrec').
  rewrite (recordFields_currency env paymentData id amount e _ Hi Ha Hc) in Hrec'.
  destruct Hrec' as [Hrec' ->]. rewrite U. cbn [fst snd].
  assert (logs w3 = push (entry_of env ("Error creating Airtable record: " ++ message e)
                            error w2) (logs w2)) as Hl3.
  { destruct (updateAirtable_cases env paymentData w2)
      as [(fields & w0 & rid & F & _) | (e' & wx & A & U' & Hlx & _)].
    - rewrite (recordFields_currency env paymentData id amount e _ Hi Ha Hc) in F.
      discriminate F.
    - rewrite U in U'. inversion U'; subst e' w3.
      rewrite logs_logged, Hlx.
      unfold record_attempt, bind in A.
      rewrite (recordFields_currency env paymentData id amount e _ Hi Ha Hc) in A.
      inversion A; subst wx. reflexivity. }
  split; [reflexivity|]. split; [|split].
  - rewrite !trace_logged, Hmail', Hmail. unfold w1. now rewrite !trace_logged.
  - rewrite !trace_logged, Hrec', Hrec. unfold w1. now rewrite !trace_logged.
  - exists entry. split; [|auto].
    rewrite !logs_logged, Hl3, Hl.
    exact (proj2 (proj2 (proj2
             (pushed_survives entry _ _ _ (logs w1))))).
Qed.

Lemma missing_currency_always_rejected_witness :
  fst (webhook
         (sample_env_with None
            (fun _ => Normal (JObj [("type", JStr "payment_method.attach_failed");
                                    ("data", JObj [("object", JObj [("id", JStr "pm_1")])])]))
            (Normal tt) (Normal "rec0001"))
         (mkRequest "{}" None) initial) =
    Normal (mkResponse 400
              (Text ("Webhook error: " ++
                     message (TypeError
                       "Cannot read properties of undefined (reading 'toUpperCase')")))).
Proof.
  apply (missing_currency_always_rejected
           (sample_env_with None
              (fun _ => Normal (JObj [("type", JStr "payment_method.attach_failed");
                                      ("data", JObj [("object", JObj [("id", JStr "pm_1")])])]))
              (Normal tt) (Normal "rec0001"))
           (mkRequest "{}" None)
           (JObj [("type", JStr "payment_method.attach_failed");
                  ("data", JObj [("object", JObj [("id", JStr "pm_1")])])])
           (JObj [("object", JObj [("id", JStr "pm_1")])])
           (JObj [("id", JStr "pm_1")])
           "payment_method.attach_failed" "pm_1" "NaN"
           (TypeError "Cannot read properties of undefined (reading 'toUpperCase')")
           initial); reflexivity.
Defined.
